(** * The voice gateway session of disco

    A shallow embedding of [src/disco/voice/client.py]: the [VoiceClient]
    class, its handlers for the voice gateway opcodes, the heartbeat loop,
    the reconnection logic of [on_close], and the public
    [connect]/[disconnect] surface.

    Python attributes become record fields, [None] becomes [option].
    Everything a method does to the outside world (the websocket, the UDP
    media client, the parent client's gateway and event bus, the two
    emitters, gevent) is recorded, in order, in a trace of effects; an
    exception ends a method and leaves the session as it was when raised. *)

From Stdlib Require Import ZArith Ascii String List Bool Lia Permutation.
From stdpp Require Import base decidable option list strings gmap.
Import ListNotations.
Local Open Scope string_scope.
Local Open Scope list_scope.
Local Open Scope Z_scope.

(** ** Constants and plain data *)

Module SpeakingFlags.
Definition NONE : Z := 0.
Definition VOICE : Z := Z.shiftl 1 0.
Definition SOUNDSHARE : Z := Z.shiftl 1 1.
Definition PRIORITY : Z := Z.shiftl 1 2.
End SpeakingFlags.

Inductive VoiceState : Type :=
| DISCONNECTED
| AWAITING_ENDPOINT
| AUTHENTICATING
| CONNECTING
| CONNECTED
| VOICE_DISCONNECTED
| VOICE_CONNECTING
| VOICE_CONNECTED
| NO_ROUTE
| ICE_CHECKING
| RECONNECTING
| AUTHENTICATED.

#[global] Instance VoiceState_eq_dec : EqDecision VoiceState.
Proof. solve_decision. Defined.

(** The opcodes of [disco.voice.packets.VoiceOPCode] that the class uses. *)
Inductive VoiceOPCode : Type :=
| IDENTIFY | SELECT_PROTOCOL | READY | HEARTBEAT | SESSION_DESCRIPTION
| SPEAKING | HEARTBEAT_ACK | RESUME | HELLO | RESUMED
| CLIENT_CONNECT | CLIENT_DISCONNECT.

Definition VOICE_GATEWAY_VERSION : string := "4".

Definition mode_lite : string := "xsalsa20_poly1305_lite".
Definition mode_suffix : string := "xsalsa20_poly1305_suffix".
Definition mode_plain : string := "xsalsa20_poly1305".

(** [SUPPORTED_MODES] is a Python set literal: its members are these three,
    the order in which a [for] loop visits them is not fixed by the source.
    Functions that iterate it take the iteration order as an argument. *)
Definition SUPPORTED_MODES : list string := [mode_lite; mode_suffix; mode_plain].

(** ** Collaborators, as far as the class looks into them *)

(** [ws.sock] and [ws.sock.connected]. *)
Record Socket : Type := mkSocket { connected : bool }.

Record Websocket : Type := mkWebsocket {
  url : string;
  sock : option Socket
}.

(** The media transport, [disco.voice.udp.UDPVoiceClient]; the class reads
    its [connected] attribute only. *)
Record UDPVoiceClient : Type := mkUDP { udp_connected : bool }.

(** [self.media]: set by a player from outside; [None] after [__init__].
    [now_playing] tells whether [media.now_playing.source.proc] exists. *)
Record Media : Type := mkMedia { now_playing : bool }.

(** The greenlet returned by [gevent.spawn(self.heartbeat_task, interval)]. *)
Record Greenlet : Type := mkGreenlet { interval : Z }.

(** The parent client: [client.state.voice_clients] (the registry of sessions,
    by its keys), [client.state.me.id] and [client.gw.session_id]. *)
Record Client : Type := mkClient {
  voice_clients : gset Z;
  me_id : Z;
  gw_session_id : string
}.

(** ** The session

    [encoder], [packets] and [state_emitter] hold no data the methods read;
    [_last_heartbeat] and [latency] are floating-point clock readings that no
    branch depends on. They are left out. *)

Record VoiceClient : Type := mkVoiceClient {
  client : Client;
  server_id : Z;
  channel_id : option Z;
  is_dm : bool;
  max_reconnects : Z;
  video_enabled : bool;
  media : option Media;
  state : VoiceState;
  token : option string;
  endpoint : option string;
  ssrc : option Z;
  ip : option string;
  port : option Z;
  mode : option string;
  udp : option UDPVoiceClient;
  audio_codec : option string;
  video_codec : option string;
  transport_id : option string;
  ws : option Websocket;
  _session_id : string;
  _reconnects : Z;
  _heartbeat_task : option Greenlet;
  _heartbeat_acknowledged : bool;
  _identified : bool;
  audio_ssrcs : list (Z * Z)
}.

(** Field updates, one for each attribute a method assigns. *)

Definition with_client (v : Client) (s : VoiceClient) : VoiceClient :=
  {| client := v; server_id := server_id s; channel_id := channel_id s; is_dm := is_dm s;
     max_reconnects := max_reconnects s; video_enabled := video_enabled s;
     media := media s; state := state s; token := token s; endpoint := endpoint s;
     ssrc := ssrc s; ip := ip s; port := port s; mode := mode s; udp := udp s;
     audio_codec := audio_codec s; video_codec := video_codec s;
     transport_id := transport_id s; ws := ws s; _session_id := _session_id s;
     _reconnects := _reconnects s; _heartbeat_task := _heartbeat_task s;
     _heartbeat_acknowledged := _heartbeat_acknowledged s; _identified := _identified s;
     audio_ssrcs := audio_ssrcs s |}.

Definition with_state (v : VoiceState) (s : VoiceClient) : VoiceClient :=
  {| client := client s; server_id := server_id s; channel_id := channel_id s;
     is_dm := is_dm s; max_reconnects := max_reconnects s;
     video_enabled := video_enabled s; media := media s; state := v; token := token s;
     endpoint := endpoint s; ssrc := ssrc s; ip := ip s; port := port s; mode := mode s;
     udp := udp s; audio_codec := audio_codec s; video_codec := video_codec s;
     transport_id := transport_id s; ws := ws s; _session_id := _session_id s;
     _reconnects := _reconnects s; _heartbeat_task := _heartbeat_task s;
     _heartbeat_acknowledged := _heartbeat_acknowledged s; _identified := _identified s;
     audio_ssrcs := audio_ssrcs s |}.

Definition with_token (v : option string) (s : VoiceClient) : VoiceClient :=
  {| client := client s; server_id := server_id s; channel_id := channel_id s;
     is_dm := is_dm s; max_reconnects := max_reconnects s;
     video_enabled := video_enabled s; media := media s; state := state s; token := v;
     endpoint := endpoint s; ssrc := ssrc s; ip := ip s; port := port s; mode := mode s;
     udp := udp s; audio_codec := audio_codec s; video_codec := video_codec s;
     transport_id := transport_id s; ws := ws s; _session_id := _session_id s;
     _reconnects := _reconnects s; _heartbeat_task := _heartbeat_task s;
     _heartbeat_acknowledged := _heartbeat_acknowledged s; _identified := _identified s;
     audio_ssrcs := audio_ssrcs s |}.

Definition with_endpoint (v : option string) (s : VoiceClient) : VoiceClient :=
  {| client := client s; server_id := server_id s; channel_id := channel_id s;
     is_dm := is_dm s; max_reconnects := max_reconnects s;
     video_enabled := video_enabled s; media := media s; state := state s;
     token := token s; endpoint := v; ssrc := ssrc s; ip := ip s; port := port s;
     mode := mode s; udp := udp s; audio_codec := audio_codec s;
     video_codec := video_codec s; transport_id := transport_id s; ws := ws s;
     _session_id := _session_id s; _reconnects := _reconnects s;
     _heartbeat_task := _heartbeat_task s;
     _heartbeat_acknowledged := _heartbeat_acknowledged s; _identified := _identified s;
     audio_ssrcs := audio_ssrcs s |}.

Definition with_ssrc (v : option Z) (s : VoiceClient) : VoiceClient :=
  {| client := client s; server_id := server_id s; channel_id := channel_id s;
     is_dm := is_dm s; max_reconnects := max_reconnects s;
     video_enabled := video_enabled s; media := media s; state := state s;
     token := token s; endpoint := endpoint s; ssrc := v; ip := ip s; port := port s;
     mode := mode s; udp := udp s; audio_codec := audio_codec s;
     video_codec := video_codec s; transport_id := transport_id s; ws := ws s;
     _session_id := _session_id s; _reconnects := _reconnects s;
     _heartbeat_task := _heartbeat_task s;
     _heartbeat_acknowledged := _heartbeat_acknowledged s; _identified := _identified s;
     audio_ssrcs := audio_ssrcs s |}.

Definition with_ip (v : option string) (s : VoiceClient) : VoiceClient :=
  {| client := client s; server_id := server_id s; channel_id := channel_id s;
     is_dm := is_dm s; max_reconnects := max_reconnects s;
     video_enabled := video_enabled s; media := media s; state := state s;
     token := token s; endpoint := endpoint s; ssrc := ssrc s; ip := v; port := port s;
     mode := mode s; udp := udp s; audio_codec := audio_codec s;
     video_codec := video_codec s; transport_id := transport_id s; ws := ws s;
     _session_id := _session_id s; _reconnects := _reconnects s;
     _heartbeat_task := _heartbeat_task s;
     _heartbeat_acknowledged := _heartbeat_acknowledged s; _identified := _identified s;
     audio_ssrcs := audio_ssrcs s |}.

Definition with_port (v : option Z) (s : VoiceClient) : VoiceClient :=
  {| client := client s; server_id := server_id s; channel_id := channel_id s;
     is_dm := is_dm s; max_reconnects := max_reconnects s;
     video_enabled := video_enabled s; media := media s; state := state s;
     token := token s; endpoint := endpoint s; ssrc := ssrc s; ip := ip s; port := v;
     mode := mode s; udp := udp s; audio_codec := audio_codec s;
     video_codec := video_codec s; transport_id := transport_id s; ws := ws s;
     _session_id := _session_id s; _reconnects := _reconnects s;
     _heartbeat_task := _heartbeat_task s;
     _heartbeat_acknowledged := _heartbeat_acknowledged s; _identified := _identified s;
     audio_ssrcs := audio_ssrcs s |}.

Definition with_mode (v : option string) (s : VoiceClient) : VoiceClient :=
  {| client := client s; server_id := server_id s; channel_id := channel_id s;
     is_dm := is_dm s; max_reconnects := max_reconnects s;
     video_enabled := video_enabled s; media := media s; state := state s;
     token := token s; endpoint := endpoint s; ssrc := ssrc s; ip := ip s; port := port s;
     mode := v; udp := udp s; audio_codec := audio_codec s; video_codec := video_codec s;
     transport_id := transport_id s; ws := ws s; _session_id := _session_id s;
     _reconnects := _reconnects s; _heartbeat_task := _heartbeat_task s;
     _heartbeat_acknowledged := _heartbeat_acknowledged s; _identified := _identified s;
     audio_ssrcs := audio_ssrcs s |}.

Definition with_udp (v : option UDPVoiceClient) (s : VoiceClient) : VoiceClient :=
  {| client := client s; server_id := server_id s; channel_id := channel_id s;
     is_dm := is_dm s; max_reconnects := max_reconnects s;
     video_enabled := video_enabled s; media := media s; state := state s;
     token := token s; endpoint := endpoint s; ssrc := ssrc s; ip := ip s; port := port s;
     mode := mode s; udp := v; audio_codec := audio_codec s; video_codec := video_codec s;
     transport_id := transport_id s; ws := ws s; _session_id := _session_id s;
     _reconnects := _reconnects s; _heartbeat_task := _heartbeat_task s;
     _heartbeat_acknowledged := _heartbeat_acknowledged s; _identified := _identified s;
     audio_ssrcs := audio_ssrcs s |}.

Definition with_audio_codec (v : option string) (s : VoiceClient) : VoiceClient :=
  {| client := client s; server_id := server_id s; channel_id := channel_id s;
     is_dm := is_dm s; max_reconnects := max_reconnects s;
     video_enabled := video_enabled s; media := media s; state := state s;
     token := token s; endpoint := endpoint s; ssrc := ssrc s; ip := ip s; port := port s;
     mode := mode s; udp := udp s; audio_codec := v; video_codec := video_codec s;
     transport_id := transport_id s; ws := ws s; _session_id := _session_id s;
     _reconnects := _reconnects s; _heartbeat_task := _heartbeat_task s;
     _heartbeat_acknowledged := _heartbeat_acknowledged s; _identified := _identified s;
     audio_ssrcs := audio_ssrcs s |}.

Definition with_video_codec (v : option string) (s : VoiceClient) : VoiceClient :=
  {| client := client s; server_id := server_id s; channel_id := channel_id s;
     is_dm := is_dm s; max_reconnects := max_reconnects s;
     video_enabled := video_enabled s; media := media s; state := state s;
     token := token s; endpoint := endpoint s; ssrc := ssrc s; ip := ip s; port := port s;
     mode := mode s; udp := udp s; audio_codec := audio_codec s; video_codec := v;
     transport_id := transport_id s; ws := ws s; _session_id := _session_id s;
     _reconnects := _reconnects s; _heartbeat_task := _heartbeat_task s;
     _heartbeat_acknowledged := _heartbeat_acknowledged s; _identified := _identified s;
     audio_ssrcs := audio_ssrcs s |}.

Definition with_transport_id (v : option string) (s : VoiceClient) : VoiceClient :=
  {| client := client s; server_id := server_id s; channel_id := channel_id s;
     is_dm := is_dm s; max_reconnects := max_reconnects s;
     video_enabled := video_enabled s; media := media s; state := state s;
     token := token s; endpoint := endpoint s; ssrc := ssrc s; ip := ip s; port := port s;
     mode := mode s; udp := udp s; audio_codec := audio_codec s;
     video_codec := video_codec s; transport_id := v; ws := ws s;
     _session_id := _session_id s; _reconnects := _reconnects s;
     _heartbeat_task := _heartbeat_task s;
     _heartbeat_acknowledged := _heartbeat_acknowledged s; _identified := _identified s;
     audio_ssrcs := audio_ssrcs s |}.

Definition with_ws (v : option Websocket) (s : VoiceClient) : VoiceClient :=
  {| client := client s; server_id := server_id s; channel_id := channel_id s;
     is_dm := is_dm s; max_reconnects := max_reconnects s;
     video_enabled := video_enabled s; media := media s; state := state s;
     token := token s; endpoint := endpoint s; ssrc := ssrc s; ip := ip s; port := port s;
     mode := mode s; udp := udp s; audio_codec := audio_codec s;
     video_codec := video_codec s; transport_id := transport_id s; ws := v;
     _session_id := _session_id s; _reconnects := _reconnects s;
     _heartbeat_task := _heartbeat_task s;
     _heartbeat_acknowledged := _heartbeat_acknowledged s; _identified := _identified s;
     audio_ssrcs := audio_ssrcs s |}.

Definition with_reconnects (v : Z) (s : VoiceClient) : VoiceClient :=
  {| client := client s; server_id := server_id s; channel_id := channel_id s;
     is_dm := is_dm s; max_reconnects := max_reconnects s;
     video_enabled := video_enabled s; media := media s; state := state s;
     token := token s; endpoint := endpoint s; ssrc := ssrc s; ip := ip s; port := port s;
     mode := mode s; udp := udp s; audio_codec := audio_codec s;
     video_codec := video_codec s; transport_id := transport_id s; ws := ws s;
     _session_id := _session_id s; _reconnects := v; _heartbeat_task := _heartbeat_task s;
     _heartbeat_acknowledged := _heartbeat_acknowledged s; _identified := _identified s;
     audio_ssrcs := audio_ssrcs s |}.

Definition with_heartbeat_task (v : option Greenlet) (s : VoiceClient) : VoiceClient :=
  {| client := client s; server_id := server_id s; channel_id := channel_id s;
     is_dm := is_dm s; max_reconnects := max_reconnects s;
     video_enabled := video_enabled s; media := media s; state := state s;
     token := token s; endpoint := endpoint s; ssrc := ssrc s; ip := ip s; port := port s;
     mode := mode s; udp := udp s; audio_codec := audio_codec s;
     video_codec := video_codec s; transport_id := transport_id s; ws := ws s;
     _session_id := _session_id s; _reconnects := _reconnects s; _heartbeat_task := v;
     _heartbeat_acknowledged := _heartbeat_acknowledged s; _identified := _identified s;
     audio_ssrcs := audio_ssrcs s |}.

Definition with_heartbeat_acknowledged (v : bool) (s : VoiceClient) : VoiceClient :=
  {| client := client s; server_id := server_id s; channel_id := channel_id s;
     is_dm := is_dm s; max_reconnects := max_reconnects s;
     video_enabled := video_enabled s; media := media s; state := state s;
     token := token s; endpoint := endpoint s; ssrc := ssrc s; ip := ip s; port := port s;
     mode := mode s; udp := udp s; audio_codec := audio_codec s;
     video_codec := video_codec s; transport_id := transport_id s; ws := ws s;
     _session_id := _session_id s; _reconnects := _reconnects s;
     _heartbeat_task := _heartbeat_task s; _heartbeat_acknowledged := v;
     _identified := _identified s; audio_ssrcs := audio_ssrcs s |}.

Definition with_identified (v : bool) (s : VoiceClient) : VoiceClient :=
  {| client := client s; server_id := server_id s; channel_id := channel_id s;
     is_dm := is_dm s; max_reconnects := max_reconnects s;
     video_enabled := video_enabled s; media := media s; state := state s;
     token := token s; endpoint := endpoint s; ssrc := ssrc s; ip := ip s; port := port s;
     mode := mode s; udp := udp s; audio_codec := audio_codec s;
     video_codec := video_codec s; transport_id := transport_id s; ws := ws s;
     _session_id := _session_id s; _reconnects := _reconnects s;
     _heartbeat_task := _heartbeat_task s;
     _heartbeat_acknowledged := _heartbeat_acknowledged s; _identified := v;
     audio_ssrcs := audio_ssrcs s |}.

Definition with_audio_ssrcs (v : list (Z * Z)) (s : VoiceClient) : VoiceClient :=
  {| client := client s; server_id := server_id s; channel_id := channel_id s;
     is_dm := is_dm s; max_reconnects := max_reconnects s;
     video_enabled := video_enabled s; media := media s; state := state s;
     token := token s; endpoint := endpoint s; ssrc := ssrc s; ip := ip s; port := port s;
     mode := mode s; udp := udp s; audio_codec := audio_codec s;
     video_codec := video_codec s; transport_id := transport_id s; ws := ws s;
     _session_id := _session_id s; _reconnects := _reconnects s;
     _heartbeat_task := _heartbeat_task s;
     _heartbeat_acknowledged := _heartbeat_acknowledged s; _identified := _identified s;
     audio_ssrcs := v |}.

(** ** Exceptions and effects *)

Inductive VoiceExceptionMsg : Type :=
| FailedToReconnect (attempts : Z)
    (* 'Failed to reconnect after {} attempts, giving up' *)
| EmptyChannelId
    (* '[{}] cannot connect to an empty channel id' *)
| FailedToConnect.
    (* 'Failed to connect to voice' *)

Inductive exn : Type :=
| VoiceException (msg : VoiceExceptionMsg) (voice_client : Z)
    (* [VoiceException(msg, self)]; the session is named by its [server_id] *)
| Exception (msg : string)
| TypeError
| AttributeError
| KeyError (key : Z)
| ValueError
| GreenletExit.
    (* gevent's [GreenletExit]: a [BaseException], no [Exception] *)

(** The [d] field of an outgoing voice gateway frame. *)
Inductive payload : Type :=
| ResumeData (server : Z) (session : string) (tok : option string)
| IdentifyData (server user : Z) (session : string) (tok : option string) (video : bool)
| HeartbeatData
| SpeakingData (speaking delay : Z) (base_ssrc : option Z)
| SelectProtocolData (port_ : option Z) (address : option string) (mode_ : option string)
    (codecs : list (string * Z * Z))
| ClientConnectData (audio : option Z) (video rtx : Z).

Inductive effect : Type :=
| StateEmit (new prev : VoiceState)         (* state_emitter.emit(state, prev_state) *)
| WsRunForever (url_ : string)              (* Websocket(url) ... ws.run_forever() *)
| WsClose (status : option Z)               (* ws.close(status=...) *)
| WsSend (op : VoiceOPCode) (d : payload)   (* ws.send(encoder.encode({op, d}), ...) *)
| GwVoiceStateUpdate (guild_id channel : option Z) (mute deaf video : bool)
| UdpConnect (ip_ : option string) (port_ : option Z)
| UdpSetAudioCodec (codec : string)
| UdpSetupEncryption (secret_key : list Z)
| UdpDisconnect
| UdpSendFrame
| UdpIncrementTimestamp
| MediaKill                                 (* media.now_playing.source.proc.kill() *)
| Spawn (interval_ : Z)                     (* gevent.spawn(self.heartbeat_task, interval) *)
| Kill                                      (* self._heartbeat_task.kill() *)
| Sleep (seconds : Z)                       (* gevent.sleep(wait_time) *)
| SleepMs (ms : Z)                          (* gevent.sleep(interval / 1000) *)
| EmitVoiceSpeaking (user : Z) (speaking soundshare priority : bool)
| EmitVoiceDisconnect (server : Z).

(** ** The monad of methods: state, trace, exception *)

Record outcome (A : Type) : Type := mkOutcome {
  post : VoiceClient;
  trace : list effect;
  result : exn + A
}.
Arguments mkOutcome {A} _ _ _.
Arguments post {A} _.
Arguments trace {A} _.
Arguments result {A} _.

Definition M (A : Type) : Type := VoiceClient -> outcome A.

Definition ret {A} (a : A) : M A := fun s => mkOutcome s [] (inr a).

Definition bind {A B} (m : M A) (f : A -> M B) : M B := fun s =>
  match m s with
  | mkOutcome s' tr (inl e) => mkOutcome s' tr (inl e)
  | mkOutcome s' tr (inr a) =>
      match f a s' with
      | mkOutcome s'' tr' r => mkOutcome s'' (tr ++ tr') r
      end
  end.

Definition raise {A} (e : exn) : M A := fun s => mkOutcome s [] (inl e).
Definition get : M VoiceClient := fun s => mkOutcome s [] (inr s).
Definition modify (f : VoiceClient -> VoiceClient) : M unit :=
  fun s => mkOutcome (f s) [] (inr tt).
Definition emit (e : effect) : M unit := fun s => mkOutcome s [e] (inr tt).

(** [try: m  except: pass] *)
Definition try_pass (m : M unit) : M unit := fun s =>
  match m s with
  | mkOutcome s' tr _ => mkOutcome s' tr (inr tt)
  end.

(** [try: m  except Exception: log]: [GreenletExit] is no [Exception] and
    goes through. *)
Definition try_log (m : M unit) : M unit := fun s =>
  match m s with
  | mkOutcome s' tr (inl GreenletExit) => mkOutcome s' tr (inl GreenletExit)
  | mkOutcome s' tr _ => mkOutcome s' tr (inr tt)
  end.

#[global] Instance M_ret : MRet M := @ret.
#[global] Instance M_bind : MBind M := fun A B f m => bind m f.

Definition when (b : bool) (m : M unit) : M unit := if b then m else ret tt.

Fixpoint count (p : effect -> bool) (tr : list effect) : nat :=
  match tr with
  | [] => 0%nat
  | e :: r => if p e then S (count p r) else count p r
  end.

(** Runs what other greenlets do while this one is blocked, and reports the
    effects they had; their exceptions are theirs. *)
Definition observing (others : M unit) : M (list effect) := fun s =>
  match others s with
  | mkOutcome s' tr _ => mkOutcome s' tr (inr tr)
  end.

(** ** Python dictionaries with integer keys, in insertion order *)

Fixpoint dict_get (k : Z) (d : list (Z * Z)) : option Z :=
  match d with
  | [] => None
  | (k', v) :: r => if bool_decide (k' = k) then Some v else dict_get k r
  end.

(** [d[k] = v]: an existing key keeps its place. *)
Fixpoint dict_set (k v : Z) (d : list (Z * Z)) : list (Z * Z) :=
  match d with
  | [] => [(k, v)]
  | (k', v') :: r =>
      if bool_decide (k' = k) then (k, v) :: r else (k', v') :: dict_set k v r
  end.

(** [del d[k]] for a key that is present. *)
Fixpoint dict_del (k : Z) (d : list (Z * Z)) : list (Z * Z) :=
  match d with
  | [] => []
  | (k', v') :: r => if bool_decide (k' = k) then r else (k', v') :: dict_del k r
  end.

Definition dict_keys (d : list (Z * Z)) : list Z := map fst d.

(** ** Reading the session *)

(** Truth value of an optional integer: [None] and [0] are false. *)
Definition truthy (z : option Z) : bool :=
  match z with
  | Some c => negb (c =? 0)
  | None => false
  end.

(** [self.ws and self.ws.sock and self.ws.sock.connected] *)
Definition ws_connected (s : VoiceClient) : bool :=
  match ws s with
  | Some w => match sock w with Some k => connected k | None => false end
  | None => false
  end.

(** [endpoint.split(':', 1)[0]] *)
Fixpoint split_host (e : string) : string :=
  match e with
  | EmptyString => EmptyString
  | String c r => if Ascii.eqb c ":"%char then EmptyString else String c (split_host r)
  end.

Definition user_id (s : VoiceClient) : Z := me_id (client s).

(** The four properties; [None + 1] is a [TypeError]. *)
Definition ssrc_audio (s : VoiceClient) : exn + option Z := inr (ssrc s).

Definition ssrc_video (s : VoiceClient) : exn + option Z :=
  match ssrc s with
  | Some b => inr (Some (b + 1))
  | None => inl TypeError
  end.

Definition ssrc_rtx (s : VoiceClient) : exn + option Z :=
  match ssrc s with
  | Some b => inr (Some (b + 2))
  | None => inl TypeError
  end.

Definition ssrc_rtcp (s : VoiceClient) : exn + option Z :=
  match ssrc s with
  | Some b => inr (Some (b + 3))
  | None => inl TypeError
  end.

(** ** [__init__] *)

Definition init (client_ : Client) (server_id_ : Z) (is_dm_ : bool)
    (max_reconnects_ : Z) : VoiceClient :=
  {| client := mkClient ({[ server_id_ ]} ∪ voice_clients client_)
                 (me_id client_) (gw_session_id client_);
     server_id := server_id_; channel_id := None; is_dm := is_dm_;
     max_reconnects := max_reconnects_; video_enabled := false; media := None;
     state := DISCONNECTED; token := None; endpoint := None; ssrc := None;
     ip := None; port := None; mode := None; udp := None; audio_codec := None;
     video_codec := None; transport_id := None; ws := None;
     _session_id := gw_session_id client_; _reconnects := 0;
     _heartbeat_task := None; _heartbeat_acknowledged := true;
     _identified := false; audio_ssrcs := [] |}.

(** ** Calls into the collaborators *)

(** Modelled from the spec: the transport's [close(status)]; the websocket
    wrapper is not under src/. It is recorded, and the socket is gone
    afterwards. Called on [None] it is an [AttributeError]. *)
Definition ws_close (status : option Z) : M unit :=
  s ← get;
  match ws s with
  | None => raise AttributeError
  | Some w => emit (WsClose status);; modify (with_ws (Some (mkWebsocket (url w) None)))
  end.

(** Modelled from the spec: the media transport's [disconnect()]; the UDP
    client is not under src/. It is recorded, and the media transport is not
    connected afterwards. *)
Definition udp_disconnect : M unit :=
  s ← get;
  match udp s with
  | None => raise AttributeError
  | Some _ => emit UdpDisconnect;; modify (with_udp (Some (mkUDP false)))
  end.

(** Truth value of a string. *)
Definition non_empty (x : option string) : bool :=
  match x with
  | Some (String _ _) => true
  | _ => false
  end.

(** Modelled from the spec: the media transport's
    [discover(ip, port) -> (externalIp, externalPort) | failure]; the UDP
    client is not under src/. The call is recorded, its answer is an input,
    and the media transport is connected when an address came back. *)
Definition udp_connect (ip_ : option string) (port_ : option Z)
    (discovered : option string * option Z) : M (option string * option Z) :=
  emit (UdpConnect ip_ port_);;
  when (non_empty (fst discovered)) (modify (with_udp (Some (mkUDP true))));;
  mret discovered.

(** [self.media.now_playing.source.proc.kill()] *)
Definition media_kill : M unit :=
  s ← get;
  match media s with
  | Some m => if now_playing m then emit MediaKill else raise AttributeError
  | None => raise AttributeError
  end.

(** [del self.client.state.voice_clients[key]] *)
Definition registry_del (key : Z) : M unit :=
  s ← get;
  if bool_decide (key ∈ voice_clients (client s)) then
    modify (with_client (mkClient (voice_clients (client s) ∖ {[ key ]})
                           (me_id (client s)) (gw_session_id (client s))))
  else raise (KeyError key).

(** ** Methods *)

Definition set_state (new : VoiceState) : M unit :=
  s ← get;
  let prev_state := state s in
  modify (with_state new);;
  emit (StateEmit new prev_state).

Definition connect_and_run : M unit :=
  s ← get;
  match endpoint s with
  | None => raise TypeError
  | Some e =>
      let u := "wss://" +:+ e +:+ "/?v=" +:+ VOICE_GATEWAY_VERSION in
      modify (with_ws (Some (mkWebsocket u None)));;
      emit (WsRunForever u)
  end.

(** [connect_and_run] with [run_forever()] as the blocking call it is:
    [during_run] is what the transport's callbacks and the other greenlets do
    while it blocks; what they raise is theirs. *)
Definition connect_and_run_during (during_run : M unit) : M unit :=
  s ← get;
  match endpoint s with
  | None => raise TypeError
  | Some e =>
      let u := "wss://" +:+ e +:+ "/?v=" +:+ VOICE_GATEWAY_VERSION in
      modify (with_ws (Some (mkWebsocket u None)));;
      emit (WsRunForever u);;
      observing during_run;;
      mret tt
  end.

Definition set_endpoint (endpoint_ : string) : M unit :=
  let endpoint_ := split_host endpoint_ in
  s ← get;
  if bool_decide (endpoint s = Some endpoint_) then mret tt else
  modify (with_endpoint (Some endpoint_));;
  when (ws_connected s) (ws_close None;; modify (with_ws None));;
  modify (with_identified false).

Definition set_token (token_ : string) : M unit :=
  s ← get;
  if bool_decide (token s = Some token_) then mret tt else
  modify (with_token (Some token_));;
  when (negb (_identified s)) connect_and_run.

(** [set_token] over the blocking [run_forever()]. *)
Definition set_token_during (during_run : M unit) (token_ : string) : M unit :=
  s ← get;
  if bool_decide (token s = Some token_) then mret tt else
  modify (with_token (Some token_));;
  when (negb (_identified s)) (connect_and_run_during during_run).

Definition send (op : VoiceOPCode) (data : payload) : M unit :=
  s ← get;
  if ws_connected s then emit (WsSend op data) else mret tt.

(** As the transport's close callback: the heartbeat loop runs in another
    greenlet, and its [kill()] returns. *)
Definition on_close (code : option Z) (reason : option string) : M unit :=
  s ← get;
  match _heartbeat_task s with
  | Some _ => emit Kill;; modify (with_heartbeat_task None)
  | None => mret tt
  end;;
  modify (with_ws None);;
  if bool_decide (state s = DISCONNECTED) then mret tt else
  set_state RECONNECTING;;
  modify (fun s => with_reconnects (_reconnects s + 1) s);;
  s ← get;
  if negb (max_reconnects s =? 0) && (max_reconnects s <? _reconnects s) then
    raise (VoiceException (FailedToReconnect (max_reconnects s)) (server_id s))
  else
  wait_time ←
    match code with
    | Some c =>
        if negb (c =? 0) && ((4000 <? c) && (c <=? 4016) || (c =? 1001)) then
          modify (with_identified false);;
          when (match udp s with Some u => udp_connected u | None => false end)
            udp_disconnect;;
          mret 5
        else mret 1
    | None => mret 1
    end;
  emit (Sleep wait_time);;
  connect_and_run.

Inductive task_status : Type := Returned | Sleeping.

(** [on_close] as the heartbeat loop calls it (line 196): the call runs in
    the loop's greenlet. gevent's [kill()] raises [GreenletExit] in the
    greenlet it kills, so when the greenlet that [_heartbeat_task] holds is the
    one running the loop ([own]), the [kill()] of line 393 ends the call there:
    lines 394 to 423 do not run, and the attribute keeps the greenlet. When
    the attribute holds another greenlet, [kill()] returns, and when it holds
    none there is no [kill()]: the call is what the transport's callback
    does. *)
Definition on_close_in_heartbeat (own : bool) (code : option Z)
    (reason : option string) : M unit :=
  s ← get;
  match _heartbeat_task s with
  | Some _ => if own then emit Kill;; raise GreenletExit else on_close code reason
  | None => on_close code reason
  end.

(** The heartbeat loop. [during_sleep] lists what the other greenlets do
    during each [gevent.sleep]; when the list runs out the loop is left
    sleeping. [own] tells whether the greenlet [_heartbeat_task] holds when
    the loop calls [on_close] is the loop's own: it is from the HELLO that
    spawned the loop (line 268) until another HELLO replaces it. *)
Fixpoint heartbeat_task (own : bool) (interval_ : Z) (during_sleep : list (M unit))
    : M task_status :=
  s ← get;
  if negb (_heartbeat_acknowledged s) then
    modify (with_heartbeat_acknowledged true);;
    ws_close (Some 4000);;
    on_close_in_heartbeat own (Some 0) (Some "HEARTBEAT failure");;
    mret Returned
  else
    send HEARTBEAT HeartbeatData;;
    modify (with_heartbeat_acknowledged false);;
    emit (SleepMs interval_);;
    match during_sleep with
    | [] => mret Sleeping
    | others :: rest => observing others;; heartbeat_task own interval_ rest
    end.

Definition handle_heartbeat : M unit := send HEARTBEAT HeartbeatData.

Definition handle_heartbeat_acknowledge : M unit :=
  modify (with_heartbeat_acknowledged true).

Definition set_speaking (voice soundshare priority : bool) (delay : Z) : M unit :=
  let value := SpeakingFlags.NONE in
  let value := if voice then Z.lor value SpeakingFlags.VOICE else value in
  let value := if soundshare then Z.lor value SpeakingFlags.SOUNDSHARE else value in
  let value := if priority then Z.lor value SpeakingFlags.PRIORITY else value in
  s ← get;
  send SPEAKING (SpeakingData value delay (ssrc s)).

Definition set_voice_state (channel_id_ : option Z) (mute deaf video : bool) : M unit :=
  s ← get;
  emit (GwVoiceStateUpdate (if is_dm s then None else Some (server_id s))
          channel_id_ mute deaf video).

Record ClientConnectPacket : Type := mkClientConnect {
  cc_user_id : Z;
  cc_audio_ssrc : Z
}.

Definition on_voice_client_connect (data : ClientConnectPacket) : M unit :=
  let user_id_ := cc_user_id data in
  modify (fun s => with_audio_ssrcs (dict_set (cc_audio_ssrc data) user_id_ (audio_ssrcs s)) s).

Definition on_voice_client_disconnect (user_id_ : Z) : M unit :=
  s ← get;
  match find (fun ssrc_ => bool_decide (dict_get ssrc_ (audio_ssrcs s) = Some user_id_))
             (dict_keys (audio_ssrcs s)) with
  | Some ssrc_ => modify (with_audio_ssrcs (dict_del ssrc_ (audio_ssrcs s)))
  | None => mret tt
  end.

Definition on_voice_hello (heartbeat_interval : Z) : M unit :=
  emit (Spawn heartbeat_interval);;
  modify (with_heartbeat_task (Some (mkGreenlet heartbeat_interval)));;
  set_state AUTHENTICATED.

Definition disconnect : M unit :=
  s ← get;
  if bool_decide (state s = DISCONNECTED) then mret tt else
  set_state DISCONNECTED;;
  when (ws_connected s) (ws_close None;; modify (with_ws None));;
  try_pass (set_voice_state None false false false);;
  match udp s with
  | Some _ => udp_disconnect
  | None => mret tt
  end;;
  try_pass media_kill;;
  registry_del (server_id s);;
  emit (EmitVoiceDisconnect (server_id s)).

(** The first member of [SUPPORTED_MODES], in the order the loop visits
    them, that the server advertises; [None] is the loop's [else]. *)
Fixpoint select_mode (order advertised : list string) : option string :=
  match order with
  | [] => None
  | m :: rest =>
      if bool_decide (m ∈ advertised) then Some m else select_mode rest advertised
  end.

(** The codec announcement; [codecs] is [AudioCodecs] paired with each
    codec's [RTPPayloadTypes] value, both from [disco.voice.udp]. *)
Fixpoint announce (idx : Z) (codecs : list (string * Z)) : list (string * Z * Z) :=
  match codecs with
  | [] => []
  | (codec, payload_type) :: rest =>
      (codec, (idx + 1) * 1000, payload_type) :: announce (idx + 1) rest
  end.

Record ReadyPacket : Type := mkReady {
  ready_ssrc : Z;
  ready_ip : string;
  ready_port : Z;
  ready_modes : list string
}.

(** [order] is the iteration order of [SUPPORTED_MODES]; [discovered] is
    what IP discovery answers. *)
Definition on_voice_ready (order : list string) (codecs : list (string * Z))
    (discovered : option string * option Z) (data : ReadyPacket) : M unit :=
  set_state CONNECTING;;
  modify (with_ssrc (Some (ready_ssrc data)));;
  modify (with_ip (Some (ready_ip data)));;
  modify (with_port (Some (ready_port data)));;
  modify (with_identified true);;
  match select_mode order (ready_modes data) with
  | Some m => modify (with_mode (Some m))
  | None => raise (Exception "Failed to find a supported voice mode")
  end;;
  modify (with_udp (Some (mkUDP false)));;
  s ← get;
  '(ip_, port_) ← udp_connect (ip s) (port s) discovered;
  if negb (non_empty ip_) then disconnect else
  send SELECT_PROTOCOL
    (SelectProtocolData port_ ip_ (mode s) (announce 0 codecs));;
  send CLIENT_CONNECT (ClientConnectData (ssrc s) 0 0).

Definition on_voice_resumed : M unit := set_state CONNECTED.

Record SdpPacket : Type := mkSdp {
  sdp_mode : string;
  sdp_audio_codec : string;
  sdp_video_codec : string;
  sdp_media_session_id : string;
  sdp_secret_key : list Z
}.

(** [bytes(bytearray(key))]: a [ValueError] unless every element is in
    [range(0, 256)]. *)
Definition to_bytes (key : list Z) : M (list Z) :=
  if forallb (fun b => (0 <=? b) && (b <? 256)) key then mret key else raise ValueError.

Definition on_voice_sdp (sdp : SdpPacket) : M unit :=
  modify (with_mode (Some (sdp_mode sdp)));;
  modify (with_audio_codec (Some (sdp_audio_codec sdp)));;
  modify (with_video_codec (Some (sdp_video_codec sdp)));;
  modify (with_transport_id (Some (sdp_media_session_id sdp)));;
  s ← get;
  match udp s with
  | None => raise AttributeError
  | Some _ =>
      emit (UdpSetAudioCodec (sdp_audio_codec sdp));;
      secret_key ← to_bytes (sdp_secret_key sdp);
      emit (UdpSetupEncryption secret_key);;
      set_state CONNECTED
  end.

(** Bound to no opcode in [__init__]. *)
Definition on_voice_codecs (audio_codec_ video_codec_ : string)
    (media_session_id : option string) : M unit :=
  modify (with_audio_codec (Some audio_codec_));;
  modify (with_video_codec (Some video_codec_));;
  match media_session_id with
  | Some t => modify (with_transport_id (Some t))
  | None => mret tt
  end;;
  s ← get;
  match udp s with
  | None => raise AttributeError
  | Some _ => emit (UdpSetAudioCodec audio_codec_)
  end.

Record SpeakingPacket : Type := mkSpeaking {
  sp_user_id : Z;
  sp_ssrc : Z;
  sp_speaking : Z
}.

Definition on_voice_speaking (data : SpeakingPacket) : M unit :=
  let user_id_ := sp_user_id data in
  modify (fun s => with_audio_ssrcs (dict_set (sp_ssrc data) user_id_ (audio_ssrcs s)) s);;
  emit (EmitVoiceSpeaking user_id_
          (negb (Z.land (sp_speaking data) SpeakingFlags.VOICE =? 0))
          (negb (Z.land (sp_speaking data) SpeakingFlags.SOUNDSHARE =? 0))
          (negb (Z.land (sp_speaking data) SpeakingFlags.PRIORITY =? 0))).

(** [handler] is what [packets.emit(op, d)] dispatches to, [None] when the
    frame does not decode; whatever the handler raises is logged. *)
Definition on_message (handler : option (M unit)) : M unit :=
  match handler with
  | Some h => try_log h
  | None => mret tt
  end.

Definition on_error : M unit := mret tt.

Definition on_open : M unit :=
  s ← get;
  if _identified s then
    send RESUME (ResumeData (server_id s) (_session_id s) (token s))
  else
    send IDENTIFY
      (IdentifyData (server_id s) (user_id s) (_session_id s) (token s) (video_enabled s)).

(** [not channel_id] *)
Definition falsy (c : option Z) : bool := negb (truthy c).

(** [during_wait] is what the other greenlets do while
    [state_emitter.once(CONNECTED, timeout)] blocks, up to the timeout: the
    wait succeeds when they emit the [CONNECTED] state change. *)
Definition connect (channel_id_ : option Z) (mute deaf video : bool)
    (during_wait : M unit) : M unit :=
  s ← get;
  let channel_id_ := if is_dm s then Some (server_id s) else channel_id_ in
  if falsy channel_id_ then raise (VoiceException EmptyChannelId (server_id s)) else
  returned ←
    (if bool_decide (channel_id s = channel_id_) then
       if bool_decide (state s = CONNECTED) then mret true else mret false
     else
       (if bool_decide (state s = CONNECTED) then mret tt
        else set_state AWAITING_ENDPOINT);;
       mret false);
  if (returned : bool) then mret tt else
  set_voice_state channel_id_ mute deaf video;;
  seen ← observing during_wait;
  if existsb (fun e => match e with StateEmit CONNECTED _ => true | _ => false end) seen
  then mret tt
  else disconnect;; raise (VoiceException FailedToConnect (server_id s)).

Definition send_frame : M unit :=
  s ← get;
  match udp s with
  | None => raise AttributeError
  | Some _ => emit UdpSendFrame
  end.

Definition increment_timestamp : M unit :=
  s ← get;
  match udp s with
  | None => raise AttributeError
  | Some _ => emit UdpIncrementTimestamp
  end.

(** ** What a trace says *)

(** The backoffs ([gevent.sleep(wait_time)]) of a trace, in order. *)
Definition backoffs (tr : list effect) : list Z :=
  omap (fun e => match e with Sleep n => Some n | _ => None end) tr.

Definition is_udp_disconnect (e : effect) : bool :=
  match e with UdpDisconnect => true | _ => false end.

Definition is_forced_close (e : effect) : bool :=
  match e with WsClose (Some c) => c =? 4000 | _ => false end.

Definition is_reconnecting (e : effect) : bool :=
  match e with StateEmit RECONNECTING _ => true | _ => false end.

Definition is_heartbeat (e : effect) : bool :=
  match e with WsSend HEARTBEAT _ => true | SleepMs _ => true | _ => false end.

Definition is_voice_disconnect (e : effect) : bool :=
  match e with EmitVoiceDisconnect _ => true | _ => false end.

(** [self.udp and self.udp.connected] *)
Definition media_connected (s : VoiceClient) : bool :=
  match udp s with
  | Some u => udp_connected u
  | None => false
  end.

(** The reconnect budget admits one more closure. *)
Definition within_budget (s : VoiceClient) : Prop :=
  max_reconnects s = 0 \/ _reconnects s + 1 <= max_reconnects s.

(** The url [connect_and_run] opens. *)
Definition gateway_url (e : string) : string :=
  "wss://" +:+ e +:+ "/?v=" +:+ VOICE_GATEWAY_VERSION.

(** What [on_close] does before it classifies the code, and the reopening
    it ends with. *)
Definition closing (s : VoiceClient) : list effect :=
  match _heartbeat_task s with
  | Some _ => [Kill; StateEmit RECONNECTING (state s)]
  | None => [StateEmit RECONNECTING (state s)]
  end.

Definition reopening (s : VoiceClient) : list effect :=
  match endpoint s with
  | Some e => [WsRunForever (gateway_url e)]
  | None => []
  end.

(** A hard closure: [identified] cleared, the media transport torn down,
    five seconds of backoff, then the reopening. *)
Definition hard_closure (s : VoiceClient) (o : outcome unit) : Prop :=
  _identified (post o) = false /\
  media_connected (post o) = false /\
  trace o = (closing s
             ++ (if media_connected s then [UdpDisconnect] else [])
             ++ (Sleep 5 :: reopening s)).

(** A soft closure: [identified] and the media transport kept, one second
    of backoff, then the reopening. *)
Definition soft_closure (s : VoiceClient) (o : outcome unit) : Prop :=
  _identified (post o) = _identified s /\
  udp (post o) = udp s /\
  trace o = (closing s ++ (Sleep 1 :: reopening s)).

(** The close codes [on_close] treats as hard. *)
Definition hard_code (code : option Z) : Prop :=
  exists c, code = Some c /\ (4001 <= c <= 4016 \/ c = 1001).

(** Sessions to evaluate the methods on. *)
Definition fresh_session : VoiceClient := init (mkClient ∅ 1 "gateway-session") 42 false 5.

Definition live_session : VoiceClient :=
  with_ws (Some (mkWebsocket (gateway_url "voice.example") (Some (mkSocket true))))
    (with_udp (Some (mkUDP true))
       (with_identified true
          (with_state CONNECTED
             (with_token (Some "token")
                (with_endpoint (Some "voice.example") fresh_session))))).

(** The session as [heartbeat_task] hands it to [on_close]. *)
Definition force_closed (s : VoiceClient) (w : Websocket) : VoiceClient :=
  with_ws (Some (mkWebsocket (url w) None)) (with_heartbeat_acknowledged true s).

(** What the gateway's signalling delivers to the session, in any order. *)
Inductive signalling : Type :=
| SetEndpoint (endpoint_ : string)
| SetToken (token_ : string).

Definition signal (c : signalling) : M unit :=
  match c with
  | SetEndpoint e => set_endpoint e
  | SetToken t => set_token t
  end.

(** A signal, with what runs while a [run_forever()] it starts blocks. *)
Definition signal_during (during_run : M unit) (c : signalling) : M unit :=
  match c with
  | SetEndpoint e => set_endpoint e
  | SetToken t => set_token_during during_run t
  end.

(** The outcome of each call of a sequence, each call starting where the
    one before left the session (an exception ends a call, not the
    session). *)
Fixpoint history (calls : list (signalling * M unit)) (s : VoiceClient)
    : list (outcome unit) :=
  match calls with
  | [] => []
  | (c, during_run) :: rest =>
      signal_during during_run c s
      :: history rest (post (signal_during during_run c s))
  end.

(** The ssrc registry after CLIENT_CONNECT then CLIENT_DISCONNECT. *)
Definition connect_then_disconnect (user_id_ ssrc_ : Z) : M unit :=
  on_voice_client_connect (mkClientConnect user_id_ ssrc_);;
  on_voice_client_disconnect user_id_.

(** The closures a trace handled as not caller-initiated: each one enters
    [RECONNECTING]. *)
Fixpoint closures (tr : list effect) : Z :=
  match tr with
  | [] => 0
  | e :: r => (if is_reconnecting e then 1 else 0) + closures r
  end.

(** From [s] to the outcome, [_reconnects] grew by the closures handled and
    [max_reconnects] stayed. *)
Definition tally {A} (s : VoiceClient) (o : outcome A) : Prop :=
  _reconnects (post o) = _reconnects s + closures (trace o) /\
  max_reconnects (post o) = max_reconnects s.

Definition tallies {A} (m : M A) : Prop := forall s, tally s (m s).

Definition ignore {A} (m : M A) : M unit := m;; mret tt.

(** Everything that can happen to a session: the calls of its public
    methods, the transport's callbacks, the handlers of the voice gateway
    opcodes, the heartbeat greenlet, one after the other or nested where a
    method blocks. *)
Inductive activity : M unit -> Prop :=
| act_idle : activity (mret tt)
| act_then a b : activity a -> activity b -> activity (try_pass a;; b)
| act_set_endpoint e : activity (set_endpoint e)
| act_set_token t : activity (set_token t)
| act_on_open : activity on_open
| act_on_error : activity on_error
| act_on_close code reason : activity (on_close code reason)
| act_on_message h : activity h -> activity (on_message (Some h))
| act_on_message_undecoded : activity (on_message None)
| act_on_voice_hello i : activity (on_voice_hello i)
| act_on_voice_ready order codecs discovered data :
    activity (on_voice_ready order codecs discovered data)
| act_on_voice_sdp sdp : activity (on_voice_sdp sdp)
| act_on_voice_codecs a v t : activity (on_voice_codecs a v t)
| act_on_voice_resumed : activity on_voice_resumed
| act_on_voice_speaking data : activity (on_voice_speaking data)
| act_on_voice_client_connect data : activity (on_voice_client_connect data)
| act_on_voice_client_disconnect u : activity (on_voice_client_disconnect u)
| act_handle_heartbeat : activity handle_heartbeat
| act_handle_heartbeat_acknowledge : activity handle_heartbeat_acknowledge
| act_set_speaking v ss p d : activity (set_speaking v ss p d)
| act_send_frame : activity send_frame
| act_increment_timestamp : activity increment_timestamp
| act_connect c mute deaf video w : activity w -> activity (connect c mute deaf video w)
| act_disconnect : activity disconnect
| act_heartbeat_pass own i : activity (ignore (heartbeat_task own i []))
| act_heartbeat_loop own i w rest :
    activity w -> activity (ignore (heartbeat_task own i rest)) ->
    activity (ignore (heartbeat_task own i (w :: rest))).

(** Two closures with a resumption after each, on a budget of two. *)
Definition two_closures : M unit :=
  try_pass (on_close (Some 1006) None);;
  try_pass on_voice_resumed;;
  try_pass (on_close None None);;
  on_voice_resumed.

(** ** More of what a trace and a session say *)

(** No [':'] in a host name. *)
Fixpoint colon_free (e : string) : bool :=
  match e with
  | EmptyString => true
  | String c r => negb (Ascii.eqb c ":"%char) && colon_free r
  end.

Definition is_run_forever (e : effect) : bool :=
  match e with WsRunForever _ => true | _ => false end.

Definition is_kill (e : effect) : bool :=
  match e with Kill => true | _ => false end.

Definition is_spawn (e : effect) : bool :=
  match e with Spawn _ => true | _ => false end.

Definition is_send (e : effect) : bool :=
  match e with WsSend _ _ => true | _ => false end.

(** The test [connect] makes on what happened during its wait. *)
Definition reached_connected (tr : list effect) : bool :=
  existsb (fun e => match e with StateEmit CONNECTED _ => true | _ => false end) tr.

(** The channel [connect] targets. *)
Definition target_channel (s : VoiceClient) (channel_id_ : option Z) : option Z :=
  if is_dm s then Some (server_id s) else channel_id_.

(** The session as [connect] leaves it when it starts to wait. *)
Definition awaiting (target : option Z) (s : VoiceClient) : VoiceClient :=
  if bool_decide (channel_id s = target) then s
  else if bool_decide (state s = CONNECTED) then s
  else with_state AWAITING_ENDPOINT s.

(** What [connect] did before it started to wait. *)
Definition requested (target : option Z) (mute deaf video : bool) (s : VoiceClient)
    : list effect :=
  (if bool_decide (channel_id s = target) then []
   else if bool_decide (state s = CONNECTED) then []
   else [StateEmit AWAITING_ENDPOINT (state s)])
  ++ [GwVoiceStateUpdate (if is_dm s then None else Some (server_id s))
        target mute deaf video].

(** The attributes no method assigns, and a registry that lost at most the
    session's own entry. *)
Definition same_identity (s s' : VoiceClient) : Prop :=
  server_id s' = server_id s /\
  channel_id s' = channel_id s /\
  is_dm s' = is_dm s /\
  max_reconnects s' = max_reconnects s /\
  video_enabled s' = video_enabled s /\
  media s' = media s /\
  _session_id s' = _session_id s /\
  me_id (client s') = me_id (client s) /\
  gw_session_id (client s') = gw_session_id (client s) /\
  (voice_clients (client s') = voice_clients (client s) \/
   voice_clients (client s') = voice_clients (client s) ∖ {[ server_id s ]}).

Definition keeps_identity {A} (m : M A) : Prop :=
  forall s, same_identity s (post (m s)).

(** A session with a connected transport, for evaluation. *)
Definition spoken_session : VoiceClient :=
  with_audio_ssrcs [(100, 7); (200, 8); (300, 8)] live_session.

(** A session the owner's voice state puts in channel 77. *)
Definition joined_session : VoiceClient :=
  {| client := client live_session; server_id := server_id live_session;
     channel_id := Some 77; is_dm := false; max_reconnects := 5;
     video_enabled := false; media := media live_session; state := CONNECTED;
     token := token live_session; endpoint := endpoint live_session;
     ssrc := Some 1000; ip := None; port := None; mode := Some mode_plain;
     udp := udp live_session; audio_codec := None; video_codec := None;
     transport_id := None; ws := ws live_session;
     _session_id := _session_id live_session; _reconnects := 0;
     _heartbeat_task := Some (mkGreenlet 41250); _heartbeat_acknowledged := true;
     _identified := true; audio_ssrcs := [] |}.

(** A session whose first [connect] timed out, in its second [connect]:
    torn down, hence out of the registry, and awaiting an endpoint again. *)
Definition reused_session : VoiceClient :=
  with_state AWAITING_ENDPOINT
    (post (connect (Some 77) false false false (mret tt) fresh_session)).


(** ** Running a method step by step *)

Definition prepend {A} (tr : list effect) (o : outcome A) : outcome A :=
  match o with
  | mkOutcome s t r => mkOutcome s (tr ++ t) r
  end.

Section Steps.
Context {A B : Type}.
Variables (k : A -> M B) (s : VoiceClient).

Lemma run_ret (a : A) : (mret a ≫= k) s = k a s.
Proof. unfold mbind, M_bind, bind, mret, M_ret, ret. destruct (k a s); reflexivity. Qed.

Lemma run_raise (e : exn) : (raise e ≫= k) s = mkOutcome s [] (inl e).
Proof. reflexivity. Qed.
End Steps.

Section UnitSteps.
Context {B : Type}.
Variable s : VoiceClient.

Lemma run_get (k : VoiceClient -> M B) : (get ≫= k) s = k s s.
Proof. unfold mbind, M_bind, bind, get. destruct (k s s); reflexivity. Qed.

Lemma run_modify (f : VoiceClient -> VoiceClient) (k : unit -> M B) :
  (modify f ≫= k) s = k tt (f s).
Proof. unfold mbind, M_bind, bind, modify. destruct (k tt (f s)); reflexivity. Qed.

Lemma run_emit (e : effect) (k : unit -> M B) :
  (emit e ≫= k) s = prepend [e] (k tt s).
Proof. reflexivity. Qed.
End UnitSteps.

Lemma run_assoc {A B C} (m : M A) (f : A -> M B) (g : B -> M C) s :
  ((m ≫= f) ≫= g) s = (m ≫= (fun x => f x ≫= g)) s.
Proof.
  unfold mbind, M_bind, bind. destruct (m s) as [s1 t1 [e|a]]; [reflexivity|].
  destruct (f a s1) as [s2 t2 [e|b]]; [reflexivity|].
  destruct (g b s2) as [s3 t3 r]. rewrite app_assoc. reflexivity.
Qed.

Lemma run_try {B} (m : M unit) (k : unit -> M B) s :
  (try_pass m ≫= k) s = match m s with mkOutcome s' tr _ => prepend tr (k tt s') end.
Proof. unfold mbind, M_bind, bind, try_pass. destruct (m s) as [s' tr r]. reflexivity. Qed.

Lemma run_observing {B} (m : M unit) (k : list effect -> M B) s :
  (observing m ≫= k) s = match m s with mkOutcome s' tr _ => prepend tr (k tr s') end.
Proof. unfold mbind, M_bind, bind, observing. destruct (m s) as [s' tr r]. reflexivity. Qed.

Lemma end_ret {A} (a : A) s : (mret a : M A) s = mkOutcome s [] (inr a).
Proof. reflexivity. Qed.

Lemma end_raise {A} (e : exn) s : @raise A e s = mkOutcome s [] (inl e).
Proof. reflexivity. Qed.

Lemma end_emit (e : effect) s : emit e s = mkOutcome s [e] (inr tt).
Proof. reflexivity. Qed.

Lemma end_modify (f : VoiceClient -> VoiceClient) s : modify f s = mkOutcome (f s) [] (inr tt).
Proof. reflexivity. Qed.

Lemma end_get s : get s = mkOutcome s [] (inr s).
Proof. reflexivity. Qed.

Ltac fields :=
  cbn [client server_id channel_id is_dm max_reconnects video_enabled media state token
       endpoint ssrc ip port mode udp audio_codec video_codec transport_id ws _session_id
       _reconnects _heartbeat_task _heartbeat_acknowledged _identified audio_ssrcs
       with_client with_state with_token with_endpoint with_ssrc with_ip with_port
       with_mode with_udp with_audio_codec with_video_codec with_transport_id with_ws
       with_reconnects with_heartbeat_task with_heartbeat_acknowledged with_identified
       with_audio_ssrcs voice_clients me_id gw_session_id url sock connected
       udp_connected now_playing interval post trace result prepend app negb andb orb
       non_empty fst snd].

(** Executes the straight-line prefix of the method under the cursor. *)
Ltac run :=
  repeat (progress
    (rewrite ?run_assoc, ?run_get, ?run_modify, ?run_emit, ?run_ret, ?run_raise,
       ?run_try, ?run_observing, ?end_ret, ?end_raise, ?end_emit, ?end_modify, ?end_get;
     cbv beta; fields)).

(** Runs on, splitting on the attributes the method branches on. *)
Ltac explore_attributes :=
  run;
  repeat (match goal with
          | |- context [match ?x with _ => _ end] => is_var x; destruct x
          | |- context [if ?b then _ else _] => is_var b; destruct b
          | |- context [sock ?x] => is_var x; destruct x
          | |- context [connected ?x] => is_var x; destruct x
          | |- context [udp_connected ?x] => is_var x; destruct x
          | |- context [now_playing ?x] => is_var x; destruct x
          end; run).

(** Runs to the end, splitting on whatever the method branches on. *)
Ltac explore :=
  run;
  repeat (match goal with
          | |- context [match ?x with _ => _ end] => is_var x; destruct x
          | |- context [if ?b then _ else _] => is_var b; destruct b
          | |- context [sock ?x] => is_var x; destruct x
          | |- context [connected ?x] => is_var x; destruct x
          | |- context [udp_connected ?x] => is_var x; destruct x
          | |- context [now_playing ?x] => is_var x; destruct x
          | |- context [if ?b then _ else _] => destruct b
          end; run).

Ltac methods :=
  unfold connect, on_voice_ready, on_close_in_heartbeat, on_close, set_token,
    set_token_during, set_endpoint, on_voice_sdp,
    on_voice_codecs,
    on_voice_hello, on_voice_resumed, on_voice_speaking, on_voice_client_connect,
    on_voice_client_disconnect, on_open, on_error, handle_heartbeat,
    handle_heartbeat_acknowledge, set_speaking, send_frame, increment_timestamp;
  unfold disconnect, connect_and_run, connect_and_run_during, udp_connect, to_bytes;
  unfold set_state, send, ws_close, udp_disconnect, media_kill, registry_del,
    set_voice_state, when, ws_connected.

(** Names the outcome of the goal's [let], keeping one copy of the call. *)
Ltac outcome :=
  match goal with
  | |- let o := ?t in _ =>
      let o' := fresh o in
      intro o'; generalize (eq_refl : t = o'); clearbody o'; revert o'
  end.

(** Settles a comparison of integers from the hypotheses. *)
Ltac compare :=
  repeat match goal with
         | |- context [Z.eqb ?a ?b] => destruct (Z.eqb_spec a b)
         | |- context [Z.ltb ?a ?b] => destruct (Z.ltb_spec a b)
         | |- context [Z.leb ?a ?b] => destruct (Z.leb_spec a b)
         end;
  cbn [negb andb orb]; first [reflexivity | lia | congruence].

Ltac finish := intros ? <-; cbn; repeat split; first [reflexivity | lia | congruence].

(** * Lemmas on the methods *)

(** ** [on_close] *)

Lemma on_close_classifies (s : VoiceClient) (code : option Z)
    (reason : option string) :
  state s <> DISCONNECTED ->
  within_budget s ->
  let o := on_close code reason s in
  (hard_code code -> hard_closure s o) /\
  (~ hard_code code -> soft_closure s o).
Proof.
  intros Hst Hb. outcome.
  unfold hard_code, hard_closure, soft_closure, closing, reopening.
  unfold within_budget, media_connected in *.
  destruct s; cbn in Hst, Hb.
  unfold on_close, set_state, when, udp_disconnect, connect_and_run. run.
  destruct _heartbeat_task0; run.
  all: rewrite bool_decide_eq_false_2 by assumption; run.
  all: replace (negb (max_reconnects0 =? 0) && (max_reconnects0 <? _reconnects0 + 1))
         with false by (symmetry; compare); run.
  all: destruct code as [c|]; run.
  all: try (intros o <-; cbn; split; [intros (c & Hc & _); discriminate Hc|];
            intros _; destruct endpoint0; repeat split; reflexivity).
  all: destruct (negb (c =? 0) && ((4000 <? c) && (c <=? 4016) || (c =? 1001))) eqn:Hc;
       run.
  all: destruct udp0 as [[[|]]|]; run.
  all: destruct endpoint0; run.
  all: intros o <-; cbn; split;
       [intros (c' & [= <-] & Hr) | intros Hn].
  all: try (repeat split; reflexivity).
  all: try (exfalso; revert Hc; compare).
  all: exfalso; apply Hn; exists c; split; [reflexivity|]; revert Hc;
       destruct (Z.eqb_spec c 0), (Z.ltb_spec 4000 c), (Z.leb_spec c 4016),
         (Z.eqb_spec c 1001); cbn; intros; first [lia | discriminate].
Qed.

(** Whatever the code, [on_close] closes nothing, sends no heartbeat, and
    enters [RECONNECTING] once unless the session is [DISCONNECTED]. *)
Lemma on_close_effects (s : VoiceClient) (code : option Z) (reason : option string) :
  let o := on_close code reason s in
  count is_forced_close (trace o) = 0%nat /\
  count is_heartbeat (trace o) = 0%nat /\
  count is_reconnecting (trace o)
    = (if bool_decide (state s = DISCONNECTED) then 0 else 1)%nat /\
  _heartbeat_acknowledged (post o) = _heartbeat_acknowledged s.
Proof.
  outcome. destruct s.
  unfold on_close, set_state, when, udp_disconnect, connect_and_run. run.
  destruct _heartbeat_task0; run.
  all: destruct (bool_decide_reflect (state0 = DISCONNECTED)); run; [finish|].
  all: destruct (negb (max_reconnects0 =? 0) && (max_reconnects0 <? _reconnects0 + 1));
       run; [finish|].
  all: destruct code as [c|]; run.
  all: try destruct (negb (c =? 0) && ((4000 <? c) && (c <=? 4016) || (c =? 1001))); run.
  all: try (destruct udp0 as [[[|]]|]; run).
  all: destruct endpoint0; run; finish.
Qed.

(** [on_close] leaves the session's identity, credentials, budget and
    registry alone. *)
Lemma on_close_keeps (s : VoiceClient) (code : option Z) (reason : option string) :
  let o := on_close code reason s in
  server_id (post o) = server_id s /\
  _session_id (post o) = _session_id s /\
  token (post o) = token s /\
  endpoint (post o) = endpoint s /\
  max_reconnects (post o) = max_reconnects s /\
  client (post o) = client s.
Proof.
  outcome. destruct s.
  unfold on_close, set_state, when, udp_disconnect, connect_and_run. run.
  destruct _heartbeat_task0; run.
  all: destruct (bool_decide (state0 = DISCONNECTED)); run; [finish|].
  all: destruct (negb (max_reconnects0 =? 0) && (max_reconnects0 <? _reconnects0 + 1));
       run; [finish|].
  all: destruct code as [c|]; run.
  all: try destruct (negb (c =? 0) && ((4000 <? c) && (c <=? 4016) || (c =? 1001))); run.
  all: try (destruct udp0 as [[[|]]|]; run).
  all: destruct endpoint0; run; finish.
Qed.

(** A closure whose code is not hard never clears [identified], never
    touches the media transport and never backs off for anything but one
    second, also when it ends early. *)
Lemma on_close_soft_always (s : VoiceClient) (code : option Z) (reason : option string) :
  ~ hard_code code ->
  let o := on_close code reason s in
  _identified (post o) = _identified s /\
  udp (post o) = udp s /\
  count is_udp_disconnect (trace o) = 0%nat /\
  (backoffs (trace o) = [] \/ backoffs (trace o) = [1]).
Proof.
  intros Hn. outcome. destruct s.
  unfold on_close, set_state, when, udp_disconnect, connect_and_run. run.
  destruct _heartbeat_task0; run.
  all: destruct (bool_decide_reflect (state0 = DISCONNECTED)); run;
       [intros ? <-; cbn; auto|].
  all: destruct (negb (max_reconnects0 =? 0) && (max_reconnects0 <? _reconnects0 + 1));
       run; [intros ? <-; cbn; auto|].
  all: destruct code as [c|]; run.
  all: try (replace (negb (c =? 0) && ((4000 <? c) && (c <=? 4016) || (c =? 1001)))
              with false; run).
  all: try (destruct endpoint0; run; intros ? <-; cbn; auto).
  all: symmetry; apply not_true_is_false; intros Hc; apply Hn; exists c;
       split; [reflexivity|]; revert Hc;
       destruct (Z.eqb_spec c 0), (Z.ltb_spec 4000 c), (Z.leb_spec c 4016),
         (Z.eqb_spec c 1001); cbn; intros; first [lia | discriminate].
Qed.

(** ** [heartbeat_task] *)

(** A pass that finds the last heartbeat unacknowledged is one forced close
    followed by one call of [on_close] from the loop; what the other greenlets
    would do during later sleeps plays no part. *)
Lemma heartbeat_task_unacknowledged (s : VoiceClient) (w : Websocket) (own : bool)
    (interval_ : Z) (during_sleep : list (M unit)) :
  _heartbeat_acknowledged s = false ->
  ws s = Some w ->
  heartbeat_task own interval_ during_sleep s =
    match on_close_in_heartbeat own (Some 0) (Some "HEARTBEAT failure")
            (force_closed s w) with
    | mkOutcome s' tr (inl e) => mkOutcome s' (WsClose (Some 4000) :: tr) (inl e)
    | mkOutcome s' tr (inr _) => mkOutcome s' (WsClose (Some 4000) :: tr) (inr Returned)
    end.
Proof.
  intros Hack Hws. unfold force_closed.
  destruct during_sleep; unfold heartbeat_task, ws_close; run.
  all: rewrite Hack; run; rewrite Hws; run.
  all: unfold mbind, M_bind, bind, mret, M_ret, ret.
  all: destruct (on_close_in_heartbeat _ _ _ _) as [s' tr [e|[]]]; cbn;
       rewrite ?app_nil_r; reflexivity.
Qed.

(** In the greenlet that [_heartbeat_task] holds, [on_close] ends at its
    [kill()]. *)
Lemma on_close_in_own_greenlet (s : VoiceClient) (g : Greenlet) (code : option Z)
    (reason : option string) :
  _heartbeat_task s = Some g ->
  on_close_in_heartbeat true code reason s = mkOutcome s [Kill] (inl GreenletExit).
Proof. intros Hg. unfold on_close_in_heartbeat. run. rewrite Hg. run. reflexivity. Qed.

(** In any other greenlet it is the transport's callback. *)
Lemma on_close_in_other_greenlet (s : VoiceClient) (own : bool) (code : option Z)
    (reason : option string) :
  own = false \/ _heartbeat_task s = None ->
  on_close_in_heartbeat own code reason s = on_close code reason s.
Proof.
  intros H. unfold on_close_in_heartbeat. rewrite run_get.
  destruct H as [-> | ->]; [destruct (_heartbeat_task s)|]; reflexivity.
Qed.

(** ** [select_mode] *)

Lemma select_mode_spec (order advertised : list string) :
  match select_mode order advertised with
  | Some m => exists before after,
                order = before ++ m :: after /\ m ∈ advertised /\
                forall x, x ∈ before -> x ∉ advertised
  | None => forall x, x ∈ order -> x ∉ advertised
  end.
Proof.
  induction order as [|m rest IH]; cbn.
  - intros x Hx. inversion Hx.
  - destruct (bool_decide_reflect (m ∈ advertised)) as [Hin|Hout].
    + exists [], rest. split; [reflexivity|]. split; [exact Hin|].
      intros x Hx. inversion Hx.
    + destruct (select_mode rest advertised) as [m'|].
      * destruct IH as (before & after & -> & Hm & Hbefore).
        exists (m :: before), after. split; [reflexivity|]. split; [exact Hm|].
        intros x Hx. apply elem_of_cons in Hx as [->|Hx]; [exact Hout|auto].
      * intros x Hx. apply elem_of_cons in Hx as [->|Hx]; [exact Hout|auto].
Qed.

Lemma select_mode_ext (order advertised advertised' : list string) :
  (forall m, m ∈ advertised' <-> m ∈ advertised) ->
  select_mode order advertised' = select_mode order advertised.
Proof.
  intros Hsame. induction order as [|m rest IH]; cbn; [reflexivity|].
  rewrite IH. destruct (bool_decide_reflect (m ∈ advertised')) as [H|H];
    destruct (bool_decide_reflect (m ∈ advertised)) as [H'|H']; try reflexivity.
  - exfalso. apply H', Hsame, H.
  - exfalso. apply H, Hsame, H'.
Qed.

(** ** [on_voice_ready] *)

(** With a mode found, READY stores it, whatever IP discovery answers. *)
Lemma on_voice_ready_mode (order : list string) (codecs : list (string * Z))
    (discovered : option string * option Z) (data : ReadyPacket) (s : VoiceClient)
    (m : string) :
  select_mode order (ready_modes data) = Some m ->
  mode (post (on_voice_ready order codecs discovered data s)) = Some m.
Proof.
  intros Hm. remember (on_voice_ready order codecs discovered data s) as o eqn:E.
  symmetry in E. revert o E. destruct s. methods. run. rewrite Hm. run.
  destruct discovered as [[[|c r]|] p]; explore; finish.
Qed.

(** With no mode found, READY raises before it reaches the media transport. *)
Lemma on_voice_ready_no_mode (order : list string) (codecs : list (string * Z))
    (discovered : option string * option Z) (data : ReadyPacket) (s : VoiceClient) :
  select_mode order (ready_modes data) = None ->
  on_voice_ready order codecs discovered data s
  = mkOutcome
      (with_identified true
         (with_port (Some (ready_port data))
            (with_ip (Some (ready_ip data))
               (with_ssrc (Some (ready_ssrc data)) (with_state CONNECTING s)))))
      [StateEmit CONNECTING (state s)]
      (inl (Exception "Failed to find a supported voice mode")).
Proof.
  intros Hm. methods. run. rewrite Hm. run. reflexivity.
Qed.

(** ** [set_endpoint] and [set_token] *)

(** A signal opens nothing, or it is [SetToken t] and what runs during
    [run_forever()] starts from the session with the token stored and the
    websocket of its endpoint. *)
Lemma signal_during_opens (during_run : M unit) (c : signalling) (s : VoiceClient) :
  let o := signal_during during_run c s in
  (trace o = [] \/ trace o = [WsClose None]) \/
  exists t e,
    c = SetToken t /\ endpoint s = Some e /\
    let ran := during_run (with_ws (Some (mkWebsocket (gateway_url e) None))
                             (with_token (Some t) s)) in
    post o = post ran /\
    trace o = WsRunForever (gateway_url e) :: trace ran /\
    result o = inr tt.
Proof.
  outcome. destruct s, c; unfold signal_during, gateway_url; methods; explore.
  all: try (intros o <-; left; cbn; auto; fail).
  all: match goal with
       | |- context [match ?f ?s1 with _ => _ end] =>
           is_var f; destruct (f s1) as [s' tr r] eqn:Hrun
       end.
  all: run; intros o <-; right; eexists _, _; split; [reflexivity|];
       split; [reflexivity|]; cbv zeta; fields; rewrite Hrun; cbn;
       rewrite ?app_nil_r; repeat split; reflexivity.
Qed.

(** With nothing running meanwhile, the blocking view is the plain one. *)
Lemma set_token_during_idle (t : string) (s : VoiceClient) :
  set_token_during (mret tt) t s = set_token t s.
Proof. destruct s. methods. explore; reflexivity. Qed.

(** ** [disconnect] *)

Lemma disconnect_noop (s : VoiceClient) :
  state s = DISCONNECTED -> disconnect s = mkOutcome s [] (inr tt).
Proof.
  intros Hst. unfold disconnect. run.
  rewrite bool_decide_eq_true_2 by exact Hst. reflexivity.
Qed.

Lemma disconnect_run (s : VoiceClient) :
  state s <> DISCONNECTED ->
  server_id s ∈ voice_clients (client s) ->
  let o := disconnect s in
  result o = inr tt /\
  state (post o) = DISCONNECTED /\
  count is_voice_disconnect (trace o) = 1%nat /\
  voice_clients (client (post o)) = (voice_clients (client s) ∖ {[ server_id s ]}).
Proof.
  intros Hst Hreg. outcome. destruct s; cbn in Hst, Hreg. methods. run.
  rewrite bool_decide_eq_false_2 by assumption. explore_attributes.
  all: rewrite bool_decide_eq_true_2 by assumption; run; finish.
Qed.

(** ** The ssrc registry *)

Lemma dict_get_set (k key v : Z) (d : list (Z * Z)) :
  dict_get k (dict_set key v d) = if bool_decide (k = key) then Some v else dict_get k d.
Proof.
  induction d as [|[k' v'] r IH]; cbn.
  - destruct (bool_decide_reflect (key = k)), (bool_decide_reflect (k = key));
      congruence.
  - destruct (bool_decide_reflect (k' = key)) as [->|Hne]; cbn.
    + destruct (bool_decide_reflect (key = k)), (bool_decide_reflect (k = key));
        congruence.
    + rewrite IH.
      destruct (bool_decide_reflect (k' = k)), (bool_decide_reflect (k = key));
        congruence.
Qed.

Lemma dict_get_keys (k v : Z) (d : list (Z * Z)) :
  dict_get k d = Some v -> In k (dict_keys d).
Proof.
  induction d as [|[k' v'] r IH]; cbn; [discriminate|].
  destruct (bool_decide_reflect (k' = k)); [left; assumption | right; auto].
Qed.

Lemma dict_keys_set (key v : Z) (d : list (Z * Z)) :
  NoDup (dict_keys d) -> NoDup (dict_keys (dict_set key v d)).
Proof.
  unfold dict_keys. induction d as [|[k' v'] r IH]; cbn; intros Hnd.
  - apply NoDup_cons. split; [apply not_elem_of_nil | constructor].
  - apply NoDup_cons in Hnd as [Hnot Hnd].
    destruct (bool_decide_reflect (k' = key)) as [->|Hne]; cbn.
    + apply NoDup_cons. split; assumption.
    + apply NoDup_cons. split; [|auto].
      intros Hin. apply list_elem_of_In, in_map_iff in Hin as ((k2 & v2) & Hk & Hin).
      cbn in Hk. subst k2. apply Hnot. apply list_elem_of_In, in_map_iff.
      assert (Hget : dict_get k' (dict_set key v r) <> None).
      { clear - Hin. induction (dict_set key v r) as [|[a b] l IHl]; cbn; [destruct Hin|].
        destruct (bool_decide_reflect (a = k')); [discriminate|].
        destruct Hin as [[= -> ->]|Hin]; [congruence|auto]. }
      rewrite dict_get_set, bool_decide_eq_false_2 in Hget by congruence.
      destruct (dict_get k' r) as [v3|] eqn:Hg; [|congruence].
      apply dict_get_keys, in_map_iff in Hg. exact Hg.
Qed.

Lemma dict_get_del (k key : Z) (d : list (Z * Z)) :
  NoDup (dict_keys d) ->
  dict_get k (dict_del key d) = if bool_decide (k = key) then None else dict_get k d.
Proof.
  unfold dict_keys. induction d as [|[k' v'] r IH]; cbn; intros Hnd.
  - destruct (bool_decide (k = key)); reflexivity.
  - apply NoDup_cons in Hnd as [Hnot Hnd].
    destruct (bool_decide_reflect (k' = key)) as [->|Hne]; cbn.
    + destruct (bool_decide_reflect (k = key)) as [->|Hk].
      * destruct (dict_get key r) as [v|] eqn:Hg; [|reflexivity].
        exfalso. apply Hnot, list_elem_of_In. exact (dict_get_keys _ _ _ Hg).
      * rewrite bool_decide_eq_false_2 by congruence. reflexivity.
    + rewrite (IH Hnd).
      destruct (bool_decide_reflect (k' = k)) as [->|Hk];
        [rewrite bool_decide_eq_false_2 by congruence|]; reflexivity.
Qed.

(** ** The reconnect counter *)

Lemma closures_app (a b : list effect) : closures (a ++ b) = closures a + closures b.
Proof. induction a as [|e a IH]; cbn [closures app]; [reflexivity|]. rewrite IH. lia. Qed.

Ltac tallied :=
  intros ? <-; unfold tally; cbn [post trace]; fields;
  repeat (progress (cbn [closures is_reconnecting]; rewrite ?closures_app));
  split; first [lia | reflexivity | congruence].

Lemma tally_on_close (code : option Z) (reason : option string) :
  tallies (on_close code reason).
Proof.
  intros s. remember (on_close code reason s) as o eqn:E. symmetry in E. revert o E.
  destruct s. methods. explore; tallied.
Qed.

Lemma tally_bind {A B} (m : M A) (k : A -> M B) :
  tallies m -> (forall a, tallies (k a)) -> tallies (m ≫= k).
Proof.
  intros Hm Hk s. unfold mbind, M_bind, bind. specialize (Hm s).
  destruct (m s) as [s' tr [e|a]]; [exact Hm|].
  specialize (Hk a s'). destruct (k a s') as [s'' tr' r].
  unfold tally in *. cbn [post trace] in *. rewrite closures_app. lia.
Qed.

Lemma tally_ret {A} (a : A) : tallies (mret a : M A).
Proof. intros s. unfold tally. cbn. lia. Qed.

Lemma tally_background (m : M unit) (s : VoiceClient) :
  tallies m ->
  match m s with
  | mkOutcome s' tr _ =>
      _reconnects s' = _reconnects s + closures tr /\ max_reconnects s' = max_reconnects s
  end.
Proof. intros Hm. specialize (Hm s). destruct (m s). exact Hm. Qed.

Ltac base :=
  let o := fresh "o" in let E := fresh "E" in
  intros s;
  match goal with |- tally _ ?t => remember t as o eqn:E; symmetry in E; revert o E end;
  destruct s; methods; explore; tallied.

Lemma tally_try_then (a b : M unit) : tallies a -> tallies b -> tallies (try_pass a;; b).
Proof.
  intros Ha Hb s. rewrite run_try. pose proof (tally_background a s Ha) as H.
  destruct (a s) as [s' tr r]. specialize (Hb s'). destruct (b s') as [s'' tr' r'].
  unfold tally in *. cbn [post trace prepend] in *. rewrite closures_app. lia.
Qed.

Lemma tally_ignore {A} (m : M A) : tallies (ignore m) <-> tallies m.
Proof.
  unfold ignore. split.
  - intros H s. specialize (H s). unfold mbind, M_bind, bind in H.
    destruct (m s) as [s' tr [e|a]]; [exact H|].
    unfold tally in *. cbn in *. rewrite app_nil_r in H. exact H.
  - intros H. apply tally_bind; [exact H|]. intros _. apply tally_ret.
Qed.

Lemma heartbeat_task_cons (own : bool) (i : Z) (w : M unit) (rest : list (M unit)) :
  heartbeat_task own i (w :: rest) =
  (s ← get;
   if negb (_heartbeat_acknowledged s) then
     modify (with_heartbeat_acknowledged true);;
     ws_close (Some 4000);;
     on_close_in_heartbeat own (Some 0) (Some "HEARTBEAT failure");;
     mret Returned
   else
     send HEARTBEAT HeartbeatData;;
     modify (with_heartbeat_acknowledged false);;
     emit (SleepMs i);;
     observing w;; heartbeat_task own i rest).
Proof. reflexivity. Qed.

Lemma activity_tallies (m : M unit) : activity m -> tallies m.
Proof.
  induction 1.
  - apply tally_ret.
  - apply tally_try_then; assumption.
  - base.
  - base.
  - base.
  - base.
  - apply tally_on_close.
  - intros s. unfold on_message. pose proof (tally_background h s IHactivity) as Hh.
    unfold try_log. destruct (h s) as [s' tr [[]|]]; exact Hh.
  - apply tally_ret.
  - base.
  - intros s. remember (on_voice_ready order codecs discovered data s) as o eqn:E.
    symmetry in E. revert o E. destruct s. methods. run.
    destruct (select_mode order (ready_modes data)); explore; tallied.
  - base.
  - base.
  - base.
  - base.
  - base.
  - intros s. remember (on_voice_client_disconnect u s) as o eqn:E.
    symmetry in E. revert o E. destruct s. methods. run.
    destruct (find _ _); run; tallied.
  - base.
  - base.
  - base.
  - base.
  - base.
  - match goal with |- tallies (connect _ _ _ _ ?w) => rename w into during end.
    intros s. remember (connect c mute deaf video during s) as o eqn:E.
    symmetry in E. revert o E. destruct s. methods. explore.
    all: try tallied.
    all: match goal with
         | |- context [match ?f ?s1 with _ => _ end] =>
             is_var f; pose proof (tally_background f s1 IHactivity) as Hw;
             destruct (f s1) as [s' tr r]
         end.
    all: destruct s'; cbn in Hw; explore; tallied.
  - base.
  - apply tally_ignore. intros s.
    remember (heartbeat_task own i [] s) as o eqn:E. symmetry in E. revert o E.
    destruct s. unfold heartbeat_task. methods. explore; tallied.
  - match goal with |- tallies (ignore (heartbeat_task _ _ (?w :: _))) => rename w into others end.
    apply tally_ignore. apply (proj1 (tally_ignore _)) in IHactivity2. intros s.
    remember (heartbeat_task own i (others :: rest) s) as o eqn:E. symmetry in E. revert o E.
    rewrite heartbeat_task_cons. destruct s. methods. run.
    destruct _heartbeat_acknowledged0; run.
    2: { explore; tallied. }
    explore.
    all: match goal with
         | |- context [match ?f ?s1 with _ => _ end] =>
             is_var f; pose proof (tally_background f s1 IHactivity1) as Hw;
             destruct (f s1) as [s' tr r];
             pose proof (IHactivity2 s') as Hrest;
             destruct (heartbeat_task own i rest s') as [s'' tr' r']
         end.
    all: unfold tally in Hrest; cbn in Hw, Hrest; tallied.
Qed.

Lemma closures_nonneg (tr : list effect) : 0 <= closures tr.
Proof.
  induction tr as [|e tr IH]; cbn [closures]; [lia|].
  destruct (is_reconnecting e); lia.
Qed.

(** Over its budget [on_close] raises, within it no [VoiceException] comes
    out. *)
Lemma on_close_exhausted (s : VoiceClient) (code : option Z) (reason : option string) :
  state s <> DISCONNECTED ->
  max_reconnects s <> 0 ->
  max_reconnects s < _reconnects s + 1 ->
  let o := on_close code reason s in
  result o = inl (VoiceException (FailedToReconnect (max_reconnects s)) (server_id s)) /\
  state (post o) = RECONNECTING /\
  client (post o) = client s.
Proof.
  intros Hst Hmax Hover. outcome. destruct s; cbn in Hst, Hmax, Hover.
  methods. run. destruct _heartbeat_task0; run.
  all: rewrite bool_decide_eq_false_2 by assumption; run.
  all: replace (negb (max_reconnects0 =? 0) && (max_reconnects0 <? _reconnects0 + 1))
         with true by (symmetry; compare); run.
  all: finish.
Qed.

Lemma on_close_within_budget (s : VoiceClient) (code : option Z) (reason : option string) :
  within_budget s ->
  forall msg c, result (on_close code reason s) <> inl (VoiceException msg c).
Proof.
  intros Hb msg c. remember (on_close code reason s) as o eqn:E. symmetry in E.
  revert o E. unfold within_budget in Hb. destruct s; cbn in Hb.
  methods. run. destruct _heartbeat_task0; run.
  all: destruct (bool_decide (state0 = DISCONNECTED)); run;
       [intros ? <-; discriminate|].
  all: replace (negb (max_reconnects0 =? 0) && (max_reconnects0 <? _reconnects0 + 1))
         with false by (symmetry; compare); run.
  all: explore; intros ? <-; discriminate.
Qed.

(** * Theorems *)

(** ** Derived synchronization sources *)

(** C8: with a base ssrc set, the audio, video, retransmit and control
    ssrcs are the base plus 0, 1, 2 and 3. *)
Theorem derived_ssrcs (s : VoiceClient) (base : Z) :
  ssrc s = Some base ->
  ssrc_audio s = inr (Some (base + 0)) /\
  ssrc_video s = inr (Some (base + 1)) /\
  ssrc_rtx s = inr (Some (base + 2)) /\
  ssrc_rtcp s = inr (Some (base + 3)).
Proof.
  intros Hbase. unfold ssrc_audio, ssrc_video, ssrc_rtx, ssrc_rtcp.
  rewrite Hbase, Z.add_0_r. repeat split.
Qed.

Lemma derived_ssrcs_witness :
  ssrc (with_ssrc (Some 1000) live_session) = Some 1000 /\
  ssrc_rtcp (with_ssrc (Some 1000) live_session) = inr (Some (1000 + 3)).
Proof.
  split; [reflexivity|].
  apply (derived_ssrcs (with_ssrc (Some 1000) live_session) 1000). reflexivity.
Defined.

(** ** Classification of closures *)

(** C1, as amended: a closure handled while the session is not Disconnected
    and within the reconnect budget is hard when its code is in 4001..4016 or
    is 1001, and soft for every other code, an absent one and 0 included. *)
Theorem on_close_classification (s : VoiceClient) (code : option Z)
    (reason : option string) :
  state s <> DISCONNECTED ->
  within_budget s ->
  let o := on_close code reason s in
  (hard_code code -> hard_closure s o) /\
  (~ hard_code code -> soft_closure s o).
Proof. intros Hst Hb. exact (on_close_classifies s code reason Hst Hb). Qed.

Lemma on_close_classification_witness :
  state live_session <> DISCONNECTED /\
  within_budget live_session /\
  hard_closure live_session (on_close (Some 4006) None live_session) /\
  soft_closure live_session (on_close (Some 1000) None live_session).
Proof.
  assert (H1 : state live_session <> DISCONNECTED) by (vm_compute; discriminate).
  assert (H2 : within_budget live_session) by (right; vm_compute; discriminate).
  split; [exact H1|]. split; [exact H2|]. split.
  - apply (on_close_classification live_session (Some 4006) None H1 H2).
    exists 4006. split; [reflexivity|lia].
  - apply (on_close_classification live_session (Some 1000) None H1 H2).
    intros (c & Hc & Hr). injection Hc as <-. lia.
Defined.

(** Code 4016 is outside 4001..4015 and is not 1001, and its closure is
    hard: [identified] is cleared and the backoff is five seconds. *)
Lemma close_code_4016_is_hard :
  state live_session <> DISCONNECTED /\
  ~ (4001 <= 4016 <= 4015 \/ 4016 = 1001) /\
  _identified live_session = true /\
  _identified (post (on_close (Some 4016) None live_session)) = false /\
  backoffs (trace (on_close (Some 4016) None live_session)) = [5].
Proof.
  split; [vm_compute; discriminate|]. split; [lia|].
  repeat split; vm_compute; reflexivity.
Qed.

(** ** The heartbeat loop *)





(** ** Fatal errors *)

(** C3, as amended: exceeding the reconnect budget and passing an empty
    channel id to [connect] raise a [VoiceException] that carries the
    session, and finding no supported mode raises an error; none of the three
    disconnects the session or removes it from the registry: the state is
    [RECONNECTING], [CONNECTING], and unchanged, and the registry is as it
    was. *)
Theorem fatal_errors_keep_session (s : VoiceClient) :
  (forall code reason,
     state s <> DISCONNECTED ->
     max_reconnects s <> 0 ->
     max_reconnects s < _reconnects s + 1 ->
     let o := on_close code reason s in
     result o = inl (VoiceException (FailedToReconnect (max_reconnects s)) (server_id s)) /\
     state (post o) = RECONNECTING /\
     client (post o) = client s) /\
  (forall order codecs discovered data,
     (forall m, m ∈ order -> m ∉ ready_modes data) ->
     let o := on_voice_ready order codecs discovered data s in
     (exists e, result o = inl e) /\
     state (post o) = CONNECTING /\
     client (post o) = client s) /\
  (forall channel mute deaf video during_wait,
     falsy (if is_dm s then Some (server_id s) else channel) = true ->
     let o := connect channel mute deaf video during_wait s in
     result o = inl (VoiceException EmptyChannelId (server_id s)) /\
     post o = s /\
     trace o = []).
Proof.
  split; [|split].
  - intros code reason Hst Hmax Hover. exact (on_close_exhausted s code reason Hst Hmax Hover).
  - intros order codecs discovered data Hnone o. subst o.
    rewrite on_voice_ready_no_mode.
    + split; [eexists; reflexivity|]. destruct s; split; reflexivity.
    + pose proof (select_mode_spec order (ready_modes data)) as Hspec.
      destruct (select_mode order (ready_modes data)) as [m|]; [|reflexivity].
      destruct Hspec as (before & after & -> & Hin & _).
      exfalso. apply (Hnone m); [|exact Hin].
      apply elem_of_app. right. apply elem_of_cons. left. reflexivity.
  - intros channel mute deaf video during_wait Hempty o. subst o.
    unfold connect. run. rewrite Hempty. run. repeat split.
Qed.

Lemma fatal_errors_keep_session_witness :
  let s := with_reconnects 5 live_session in
  (state s <> DISCONNECTED /\ max_reconnects s <> 0 /\ max_reconnects s < _reconnects s + 1 /\
   state (post (on_close (Some 1006) None s)) = RECONNECTING) /\
  ((forall m, m ∈ SUPPORTED_MODES -> m ∉ ["aead_aes256_gcm"]) /\
   state (post (on_voice_ready SUPPORTED_MODES [] (None, None)
                  (mkReady 1 "10.0.0.1" 50000 ["aead_aes256_gcm"]) s)) = CONNECTING) /\
  (falsy (if is_dm s then Some (server_id s) else None) = true /\
   post (connect None false false false (mret tt) s) = s).
Proof.
  intros s.
  assert (H1 : state s <> DISCONNECTED) by (vm_compute; discriminate).
  assert (H2 : max_reconnects s <> 0) by (vm_compute; discriminate).
  assert (H3 : max_reconnects s < _reconnects s + 1) by (vm_compute; reflexivity).
  assert (H4 : forall m, m ∈ SUPPORTED_MODES -> m ∉ ["aead_aes256_gcm"]).
  { intros m Hm Hin. apply list_elem_of_singleton in Hin. subst m.
    revert Hm. apply (bool_decide_eq_false_1 _). vm_compute. reflexivity. }
  assert (H5 : falsy (if is_dm s then Some (server_id s) else None) = true)
    by reflexivity.
  destruct (fatal_errors_keep_session s) as (Hbudget & Hmode & Hempty).
  split; [|split].
  - split; [exact H1|]. split; [exact H2|]. split; [exact H3|].
    apply (Hbudget (Some 1006) None H1 H2 H3).
  - split; [exact H4|].
    apply (Hmode SUPPORTED_MODES [] (None, None)
             (mkReady 1 "10.0.0.1" 50000 ["aead_aes256_gcm"]) H4).
  - split; [exact H5|]. apply (Hempty None false false false (mret tt) H5).
Defined.

(** A fresh session asked to connect to no channel raises while still in
    the registry; a session over its budget raises in [RECONNECTING], still
    in the registry; a READY without a supported mode raises a plain
    exception in [CONNECTING], still in the registry. *)
Lemma fatal_errors_without_disconnect :
  (let o := connect None false false false (mret tt) fresh_session in
   result o = inl (VoiceException EmptyChannelId 42) /\
   bool_decide (42 ∈ voice_clients (client (post o))) = true) /\
  (let o := on_close (Some 1006) None (with_reconnects 5 live_session) in
   result o = inl (VoiceException (FailedToReconnect 5) 42) /\
   state (post o) = RECONNECTING /\
   bool_decide (42 ∈ voice_clients (client (post o))) = true) /\
  (let o := on_voice_ready SUPPORTED_MODES [] (None, None)
              (mkReady 1 "10.0.0.1" 50000 ["aead_aes256_gcm"]) live_session in
   result o = inl (Exception "Failed to find a supported voice mode") /\
   state (post o) = CONNECTING /\
   bool_decide (42 ∈ voice_clients (client (post o))) = true).
Proof. repeat split; vm_compute; reflexivity. Qed.

(** ** Mode selection *)

(** C4: on READY the mode is the first one, in the order [SUPPORTED_MODES]
    is visited, that the server advertises, and READY stores it; the choice
    depends on the advertised modes only as a set; when the only supported
    mode advertised is [xsalsa20_poly1305] that one is chosen; when none is
    advertised READY raises 'Failed to find a supported voice mode' and goes
    no further. *)
Theorem mode_selection (order : list string) (codecs : list (string * Z))
    (discovered : option string * option Z) (data : ReadyPacket) (s : VoiceClient) :
  order ≡ₚ SUPPORTED_MODES ->
  let chosen := select_mode order (ready_modes data) in
  let o := on_voice_ready order codecs discovered data s in
  (forall m, chosen = Some m ->
     mode (post o) = Some m /\
     exists before after,
       order = before ++ m :: after /\ m ∈ ready_modes data /\
       forall x, x ∈ before -> x ∉ ready_modes data) /\
  (forall advertised,
     (forall m, m ∈ advertised <-> m ∈ ready_modes data) ->
     select_mode order advertised = chosen) /\
  ((forall m, m ∈ SUPPORTED_MODES -> m ∈ ready_modes data -> m = mode_plain) ->
   mode_plain ∈ ready_modes data ->
   chosen = Some mode_plain /\ mode (post o) = Some mode_plain) /\
  ((forall m, m ∈ SUPPORTED_MODES -> m ∉ ready_modes data) ->
   chosen = None /\
   result o = inl (Exception "Failed to find a supported voice mode") /\
   trace o = [StateEmit CONNECTING (state s)] /\
   mode (post o) = mode s).
Proof.
  intros Hperm chosen o.
  pose proof (select_mode_spec order (ready_modes data)) as Hspec. fold chosen in Hspec.
  assert (Hsup : forall m, m ∈ order <-> m ∈ SUPPORTED_MODES).
  { intros m. rewrite Hperm. reflexivity. }
  split; [|split; [|split]].
  - intros m Hm. split.
    + apply on_voice_ready_mode. exact Hm.
    + rewrite Hm in Hspec. exact Hspec.
  - intros advertised Hsame. apply select_mode_ext. exact Hsame.
  - intros Honly Hplain.
    assert (Hchosen : chosen = Some mode_plain).
    { destruct chosen as [m|].
      - destruct Hspec as (before & after & Horder & Hin & _).
        f_equal. apply Honly; [|exact Hin]. apply Hsup. rewrite Horder.
        apply elem_of_app. right. apply elem_of_cons. left. reflexivity.
      - exfalso. apply (Hspec mode_plain); [|exact Hplain].
        apply Hsup. unfold SUPPORTED_MODES. rewrite !elem_of_cons. auto. }
    split; [exact Hchosen|]. apply on_voice_ready_mode. exact Hchosen.
  - intros Hdisjoint.
    assert (Hchosen : chosen = None).
    { destruct chosen as [m|]; [|reflexivity].
      destruct Hspec as (before & after & Horder & Hin & _).
      exfalso. apply (Hdisjoint m); [|exact Hin]. apply Hsup. rewrite Horder.
      apply elem_of_app. right. apply elem_of_cons. left. reflexivity. }
    split; [exact Hchosen|]. subst o.
    rewrite (on_voice_ready_no_mode order codecs discovered data s Hchosen).
    destruct s; repeat split.
Qed.

Lemma mode_selection_witness :
  [mode_plain; mode_lite; mode_suffix] ≡ₚ SUPPORTED_MODES /\
  mode_plain ∈ ["aead_aes256_gcm"; mode_plain] /\
  mode (post (on_voice_ready [mode_plain; mode_lite; mode_suffix] [("opus", 120)]
                (Some "203.0.113.7", Some 50001)
                (mkReady 1 "10.0.0.1" 50000 ["aead_aes256_gcm"; mode_plain])
                live_session))
  = Some mode_plain.
Proof.
  assert (Hperm : [mode_plain; mode_lite; mode_suffix] ≡ₚ SUPPORTED_MODES).
  { exact (Permutation_cons_append [mode_lite; mode_suffix] mode_plain). }
  assert (Hplain : mode_plain ∈ ["aead_aes256_gcm"; mode_plain]).
  { rewrite !elem_of_cons. auto. }
  split; [exact Hperm|]. split; [exact Hplain|].
  apply (mode_selection [mode_plain; mode_lite; mode_suffix] [("opus", 120)]
           (Some "203.0.113.7", Some 50001)
           (mkReady 1 "10.0.0.1" 50000 ["aead_aes256_gcm"; mode_plain])
           live_session Hperm); [|exact Hplain].
  intros m Hsup Hin. cbn in Hin.
  apply elem_of_cons in Hin as [->|Hin].
  - exfalso. revert Hsup. apply (bool_decide_eq_false_1 _). vm_compute. reflexivity.
  - apply list_elem_of_singleton in Hin. exact Hin.
Defined.

(** The order in which [SUPPORTED_MODES] is visited decides the choice: the
    source fixes none, and of two orders of the same three modes one chooses
    [xsalsa20_poly1305_suffix] and the other [xsalsa20_poly1305] for the same
    advertised modes. *)
Lemma mode_choice_depends_on_order :
  [mode_lite; mode_suffix; mode_plain] ≡ₚ SUPPORTED_MODES /\
  [mode_plain; mode_suffix; mode_lite] ≡ₚ SUPPORTED_MODES /\
  mode (post (on_voice_ready [mode_lite; mode_suffix; mode_plain] [("opus", 120)]
                (Some "203.0.113.7", Some 50001)
                (mkReady 1 "10.0.0.1" 50000 [mode_plain; mode_suffix]) live_session))
  = Some mode_suffix /\
  mode (post (on_voice_ready [mode_plain; mode_suffix; mode_lite] [("opus", 120)]
                (Some "203.0.113.7", Some 50001)
                (mkReady 1 "10.0.0.1" 50000 [mode_plain; mode_suffix]) live_session))
  = Some mode_plain.
Proof.
  split; [reflexivity|]. split.
  - exact (Permutation_sym (Permutation_rev [mode_lite; mode_suffix; mode_plain])).
  - split; apply on_voice_ready_mode; vm_compute; reflexivity.
Qed.

(** ** Endpoint and token *)

(** C5: over every sequence of [set_endpoint] and [set_token] calls, from
    any session and whatever runs while a [run_forever()] blocks, a call either
    opens nothing, or it is a [set_token] made on a session that has an
    endpoint: the websocket is created and run on the session with that
    endpoint and the new token stored, and it is the url of that endpoint;
    what runs from then on starts from there. *)
Theorem transport_opens_with_endpoint_and_token (calls : list (signalling * M unit))
    (s : VoiceClient) (i : nat) (c : signalling) (during_run : M unit)
    (o : outcome unit) :
  calls !! i = Some (c, during_run) ->
  history calls s !! i = Some o ->
  (trace o = [] \/ trace o = [WsClose None]) \/
  exists before t e,
    c = SetToken t /\ endpoint before = Some e /\ token before = Some t /\
    let ran := during_run (with_ws (Some (mkWebsocket (gateway_url e) None)) before) in
    post o = post ran /\
    trace o = WsRunForever (gateway_url e) :: trace ran /\
    result o = inr tt.
Proof.
  revert s i. induction calls as [|[c' d'] rest IH]; intros s i Hc Hi; [discriminate Hi|].
  destruct i as [|i]; cbn in Hc, Hi.
  - injection Hc as -> ->. injection Hi as <-.
    destruct (signal_during_opens during_run c s) as [Hnone|(t & e & Hc & He & Hran)].
    + left. exact Hnone.
    + right. exists (with_token (Some t) s), t, e.
      split; [exact Hc|]. split; [destruct s; exact He|].
      split; [destruct s; reflexivity | exact Hran].
  - apply (IH _ _ Hc Hi).
Qed.

Lemma transport_opens_with_endpoint_and_token_witness :
  let calls := [(SetToken "token", on_open); (SetEndpoint "voice.example:443", on_open);
                (SetToken "renewed", on_open)] in
  let before :=
    with_token (Some "renewed")
      (post (set_endpoint "voice.example:443"
               (post (set_token_during on_open "token" fresh_session)))) in
  let o := set_token_during on_open "renewed"
             (post (set_endpoint "voice.example:443"
                      (post (set_token_during on_open "token" fresh_session)))) in
  calls !! 2%nat = Some (SetToken "renewed", on_open) /\
  history calls fresh_session !! 2%nat = Some o /\
  endpoint before = Some "voice.example" /\
  token before = Some "renewed" /\
  trace o = [WsRunForever (gateway_url "voice.example")] /\
  ((trace o = [] \/ trace o = [WsClose None]) \/
   exists before t e,
     SetToken "renewed" = SetToken t /\ endpoint before = Some e /\ token before = Some t /\
     post o = post (on_open (with_ws (Some (mkWebsocket (gateway_url e) None)) before)) /\
     trace o = WsRunForever (gateway_url e)
               :: trace (on_open (with_ws (Some (mkWebsocket (gateway_url e) None)) before)) /\
     result o = inr tt).
Proof.
  intros calls before o.
  split; [reflexivity|]. split; [reflexivity|]. split; [reflexivity|].
  split; [reflexivity|]. split; [reflexivity|].
  exact (transport_opens_with_endpoint_and_token calls fresh_session 2
           (SetToken "renewed") on_open o eq_refl eq_refl).
Defined.

(** ** Teardown *)

(** C6: [disconnect] on a Disconnected session does nothing; called twice
    on a registered session in any other state it succeeds both times, the
    second call doing nothing, so that there is one disconnect notification
    and one removal from the registry. *)
Theorem disconnect_idempotent (s : VoiceClient) :
  (state s = DISCONNECTED -> disconnect s = mkOutcome s [] (inr tt)) /\
  (state s <> DISCONNECTED ->
   server_id s ∈ voice_clients (client s) ->
   let once := disconnect s in
   let twice := disconnect (post once) in
   result once = inr tt /\
   twice = mkOutcome (post once) [] (inr tt) /\
   count is_voice_disconnect (trace once ++ trace twice) = 1%nat /\
   voice_clients (client (post once)) = (voice_clients (client s) ∖ {[ server_id s ]}) /\
   (server_id s ∉ voice_clients (client (post twice))) /\
   state (post twice) = DISCONNECTED).
Proof.
  split; [apply disconnect_noop|].
  intros Hst Hreg once twice.
  destruct (disconnect_run s Hst Hreg) as (Hres & Hpost & Hcount & Hdel).
  fold once in Hres, Hpost, Hcount, Hdel.
  assert (Htwice : twice = mkOutcome (post once) [] (inr tt))
    by (apply disconnect_noop; exact Hpost).
  rewrite Htwice. cbn [post trace]. rewrite app_nil_r.
  repeat split; try assumption.
  rewrite Hdel. intros [_ Hout]%elem_of_difference.
  apply Hout, elem_of_singleton. reflexivity.
Qed.

Lemma disconnect_idempotent_witness :
  state live_session <> DISCONNECTED /\
  server_id live_session ∈ voice_clients (client live_session) /\
  count is_voice_disconnect
    (trace (disconnect live_session)
     ++ trace (disconnect (post (disconnect live_session)))) = 1%nat.
Proof.
  assert (H1 : state live_session <> DISCONNECTED) by (vm_compute; discriminate).
  assert (H2 : server_id live_session ∈ voice_clients (client live_session)).
  { apply (bool_decide_eq_true_1 _). vm_compute. reflexivity. }
  split; [exact H1|]. split; [exact H2|].
  apply (proj2 (disconnect_idempotent live_session) H1 H2).
Defined.

(** A session reused after a teardown is not Disconnected and not in the
    registry: its [disconnect] raises [KeyError] at the removal, before the
    notification, and the second call finds it Disconnected. The second
    [connect] of a session whose first one timed out ends this way. *)
Lemma disconnect_unregistered_raises :
  state reused_session <> DISCONNECTED /\
  (server_id reused_session ∉ voice_clients (client reused_session)) /\
  result (disconnect reused_session) = inl (KeyError 42) /\
  count is_voice_disconnect
    (trace (disconnect reused_session)
     ++ trace (disconnect (post (disconnect reused_session)))) = 0%nat /\
  result (connect (Some 77) false false false (mret tt)
            (post (connect (Some 77) false false false (mret tt) fresh_session)))
  = inl (KeyError 42).
Proof.
  split; [vm_compute; discriminate|]. split.
  - apply (bool_decide_eq_false_1 _). vm_compute. reflexivity.
  - repeat split; vm_compute; reflexivity.
Qed.

(** ** The ssrc registry *)

(** C7: CLIENT_CONNECT for user [u] with audio ssrc [a], then
    CLIENT_DISCONNECT for [u], leaves no ssrc mapped to [u], provided no
    other ssrc was mapped to [u] before (the registry being a dictionary: its
    keys are distinct). *)
Theorem client_connect_then_disconnect (s : VoiceClient) (u a : Z) :
  NoDup (dict_keys (audio_ssrcs s)) ->
  (forall k, k <> a -> dict_get k (audio_ssrcs s) <> Some u) ->
  let o := connect_then_disconnect u a s in
  result o = inr tt /\
  forall k, dict_get k (audio_ssrcs (post o)) <> Some u.
Proof.
  intros Hnd Hother. outcome. unfold connect_then_disconnect. methods. run.
  cbn [cc_audio_ssrc cc_user_id]. set (d' := dict_set a u (audio_ssrcs s)).
  assert (Hnd' : NoDup (dict_keys d')) by (apply dict_keys_set; exact Hnd).
  assert (Hget : forall k, dict_get k d' = Some u -> k = a).
  { intros k. unfold d'. rewrite dict_get_set.
    destruct (bool_decide_reflect (k = a)) as [->|Hk]; [reflexivity|].
    intros Hk'. exfalso. exact (Hother k Hk Hk'). }
  assert (Ha : dict_get a d' = Some u).
  { unfold d'. rewrite dict_get_set, bool_decide_eq_true_2 by reflexivity. reflexivity. }
  destruct (find _ (dict_keys d')) as [k0|] eqn:Hfind.
  - apply find_some in Hfind as [_ Hk0]. apply bool_decide_eq_true_1 in Hk0.
    apply Hget in Hk0. subst k0. run. intros o <-. cbn. split; [reflexivity|].
    intros k. destruct s; cbn. rewrite dict_get_del by exact Hnd'.
    destruct (bool_decide_reflect (k = a)) as [->|Hk]; [discriminate|].
    intros Hk'. apply Hk, Hget. exact Hk'.
  - exfalso. pose proof (find_none _ _ Hfind a (dict_get_keys _ _ _ Ha)) as Hcontra.
    cbv beta in Hcontra. rewrite bool_decide_eq_true_2 in Hcontra by exact Ha.
    discriminate Hcontra.
Qed.

Lemma client_connect_then_disconnect_witness :
  let s := with_audio_ssrcs [(100, 7); (200, 8)] live_session in
  NoDup (dict_keys (audio_ssrcs s)) /\
  (forall k, k <> 200 -> dict_get k (audio_ssrcs s) <> Some 8) /\
  audio_ssrcs (post (connect_then_disconnect 8 200 s)) = [(100, 7)] /\
  forall k, dict_get k (audio_ssrcs (post (connect_then_disconnect 8 200 s))) <> Some 8.
Proof.
  intros s.
  assert (H1 : NoDup (dict_keys (audio_ssrcs s))).
  { apply (bool_decide_eq_true_1 _). vm_compute. reflexivity. }
  assert (H2 : forall k, k <> 200 -> dict_get k (audio_ssrcs s) <> Some 8).
  { intros k Hk. cbn. repeat case_bool_decide; congruence. }
  split; [exact H1|]. split; [exact H2|]. split; [reflexivity|].
  apply (client_connect_then_disconnect s 8 200 H1 H2).
Defined.

(** ** The reconnect budget *)

(** C10: through anything that happens to a session, [_reconnects] only
    grows, by one for each closure handled as not caller-initiated, and
    [max_reconnects] stays; nothing resets the counter. So, for a session that
    started at zero with a nonzero budget and is not Disconnected, the closure
    that comes after [max_reconnects] handled ones raises the reconnect
    exhaustion error carrying the session, and no earlier one does. *)
Theorem reconnect_counter_never_resets (m : M unit) (s : VoiceClient)
    (code : option Z) (reason : option string) :
  activity m ->
  let o := m s in
  _reconnects (post o) = _reconnects s + closures (trace o) /\
  _reconnects s <= _reconnects (post o) /\
  max_reconnects (post o) = max_reconnects s /\
  (_reconnects s = 0 ->
   max_reconnects s <> 0 ->
   state (post o) <> DISCONNECTED ->
   (closures (trace o) = max_reconnects s ->
    result (on_close code reason (post o))
    = inl (VoiceException (FailedToReconnect (max_reconnects s)) (server_id (post o)))) /\
   (closures (trace o) < max_reconnects s ->
    forall msg c, result (on_close code reason (post o)) <> inl (VoiceException msg c))).
Proof.
  intros Hact o. destruct (activity_tallies m Hact s) as [Hcount Hmax].
  fold o in Hcount, Hmax. pose proof (closures_nonneg (trace o)) as Hpos.
  split; [exact Hcount|]. split; [lia|]. split; [exact Hmax|].
  intros Hzero Hbudget Hst. split.
  - intros Hlast. rewrite <- Hmax.
    apply on_close_exhausted; [exact Hst|lia|lia].
  - intros Hearlier. apply on_close_within_budget. right. lia.
Qed.

Lemma reconnect_counter_never_resets_witness :
  let s := init (mkClient ∅ 1 "gateway-session") 42 false 2 in
  let s := with_state CONNECTED (with_endpoint (Some "voice.example") s) in
  activity two_closures /\
  _reconnects s = 0 /\
  max_reconnects s <> 0 /\
  state (post (two_closures s)) <> DISCONNECTED /\
  closures (trace (two_closures s)) = max_reconnects s /\
  result (on_close (Some 1006) None (post (two_closures s)))
  = inl (VoiceException (FailedToReconnect 2) 42).
Proof.
  intros s0 s.
  assert (Hact : activity two_closures).
  { unfold two_closures. repeat (apply act_then; [constructor|]). constructor. }
  assert (H1 : _reconnects s = 0) by reflexivity.
  assert (H2 : max_reconnects s <> 0) by (vm_compute; discriminate).
  assert (H3 : state (post (two_closures s)) <> DISCONNECTED)
    by (vm_compute; discriminate).
  assert (H4 : closures (trace (two_closures s)) = max_reconnects s)
    by (vm_compute; reflexivity).
  repeat (split; [assumption|]).
  exact (proj1 (proj2 (proj2 (proj2
           (reconnect_counter_never_resets two_closures s (Some 1006) None Hact)))
           H1 H2 H3) H4).
Defined.


(** * More of the class *)

Ltac open_session s :=
  destruct s as [client0 server_id0 channel_id0 is_dm0 max_reconnects0 video_enabled0
                 media0 state0 token0 endpoint0 ssrc0 ip0 port0 mode0 udp0 audio_codec0
                 video_codec0 transport_id0 ws0 _session_id0 _reconnects0
                 _heartbeat_task0 _heartbeat_acknowledged0 _identified0 audio_ssrcs0].

(** ** Endpoint and token, one call at a time *)

Lemma colon_free_split_host (e : string) : colon_free (split_host e) = true.
Proof.
  induction e as [|c r IH]; cbn; [reflexivity|].
  destruct (Ascii.eqb c ":") eqn:Hc; cbn; [reflexivity|]. rewrite Hc. exact IH.
Qed.

Lemma split_host_colon_free (h : string) : colon_free h = true -> split_host h = h.
Proof.
  induction h as [|c r IH]; cbn; [reflexivity|].
  destruct (Ascii.eqb c ":"); cbn; [discriminate|]. intros H. rewrite (IH H). reflexivity.
Qed.

Lemma split_host_append (h rest : string) :
  colon_free h = true -> split_host (h +:+ String ":" rest) = h.
Proof.
  induction h as [|c r IH]; simpl; [reflexivity|].
  destruct (Ascii.eqb c ":"); simpl; [discriminate|]. intros H. rewrite (IH H). reflexivity.
Qed.

(** X1: [endpoint.split(':', 1)[0]] keeps the host and drops the port: a
    host without a colon comes back whole, whatever follows its first colon
    is dropped, and what comes back never holds a colon. *)
Theorem split_host_strips_port (h rest : string) :
  colon_free h = true ->
  split_host h = h /\
  split_host (h +:+ ":" +:+ rest) = h /\
  colon_free (split_host rest) = true /\
  split_host (split_host rest) = split_host rest.
Proof.
  intros Hh. split; [exact (split_host_colon_free h Hh)|]. split.
  - exact (split_host_append h rest Hh).
  - split; [apply colon_free_split_host|].
    apply split_host_colon_free, colon_free_split_host.
Qed.

Lemma split_host_strips_port_witness :
  colon_free "voice.example" = true /\
  split_host ("voice.example" +:+ ":" +:+ "443") = "voice.example".
Proof.
  split; [reflexivity|].
  apply (split_host_strips_port "voice.example" "443"). reflexivity.
Defined.

(** X2: a [set_endpoint] that changes the endpoint stores the host, clears
    [identified], closes and drops the transport when it is connected, and
    does nothing else: it never opens a transport and never raises. *)
Theorem set_endpoint_changes (s : VoiceClient) (e : string) :
  endpoint s <> Some (split_host e) ->
  let o := set_endpoint e s in
  result o = inr tt /\
  endpoint (post o) = Some (split_host e) /\
  _identified (post o) = false /\
  ws (post o) = (if ws_connected s then None else ws s) /\
  trace o = (if ws_connected s then [WsClose None] else []) /\
  token (post o) = token s /\
  state (post o) = state s /\
  _reconnects (post o) = _reconnects s.
Proof.
  intros Hne. outcome. open_session s; cbn in Hne. methods. run.
  rewrite bool_decide_eq_false_2 by assumption. explore; finish.
Qed.

Lemma set_endpoint_changes_witness :
  endpoint live_session <> Some (split_host "other.example:443") /\
  endpoint (post (set_endpoint "other.example:443" live_session)) = Some "other.example" /\
  trace (set_endpoint "other.example:443" live_session) = [WsClose None].
Proof.
  assert (H : endpoint live_session <> Some (split_host "other.example:443"))
    by (vm_compute; discriminate).
  split; [exact H|].
  destruct (set_endpoint_changes live_session "other.example:443" H)
    as (_ & He & _ & _ & Htr & _).
  split; [exact He | exact Htr].
Defined.

(** X3: signalling the same endpoint or the same token again does nothing,
    whatever the first call did: the second call changes no attribute, has no
    effect and returns. *)
Theorem signalling_twice (s : VoiceClient) (c : signalling) :
  signal c (post (signal c s)) = mkOutcome (post (signal c s)) [] (inr tt).
Proof.
  destruct c as [e|t]; unfold signal.
  - assert (Hend : endpoint (post (set_endpoint e s)) = Some (split_host e)).
    { remember (set_endpoint e s) as o eqn:E. symmetry in E. revert o E.
      open_session s. methods. run.
      match goal with
      | |- context [bool_decide (?x = ?y)] =>
          destruct (bool_decide_reflect (x = y)) as [->|Hne]
      end; explore; finish. }
    unfold set_endpoint at 1. run.
    rewrite bool_decide_eq_true_2 by exact Hend. reflexivity.
  - assert (Htok : token (post (set_token t s)) = Some t).
    { remember (set_token t s) as o eqn:E. symmetry in E. revert o E.
      open_session s. methods. run.
      match goal with
      | |- context [bool_decide (?x = ?y)] =>
          destruct (bool_decide_reflect (x = y)) as [->|Hne]
      end; explore; finish. }
    unfold set_token at 1. run.
    rewrite bool_decide_eq_true_2 by exact Htok. reflexivity.
Qed.

(** X4: a [set_token] with a new token stores it in every case; an
    identified session goes no further; one that is not identified opens the
    gateway url of its endpoint, and raises [TypeError] with nothing opened
    when it has no endpoint yet. *)
Theorem set_token_changes (s : VoiceClient) (t : string) :
  token s <> Some t ->
  let o := set_token t s in
  token (post o) = Some t /\
  endpoint (post o) = endpoint s /\
  _identified (post o) = _identified s /\
  (_identified s = true ->
   result o = inr tt /\ trace o = [] /\ ws (post o) = ws s) /\
  (_identified s = false -> endpoint s = None ->
   result o = inl TypeError /\ trace o = [] /\ ws (post o) = ws s) /\
  (_identified s = false -> forall e, endpoint s = Some e ->
   result o = inr tt /\ trace o = [WsRunForever (gateway_url e)] /\
   ws (post o) = Some (mkWebsocket (gateway_url e) None)).
Proof.
  intros Hne. outcome. open_session s; cbn in Hne. methods. run.
  rewrite bool_decide_eq_false_2 by assumption. run.
  destruct _identified0, endpoint0; run; intros o <-; cbn.
  all: repeat split; try reflexivity.
  all: unfold gateway_url; intros; repeat split; congruence.
Qed.

Lemma set_token_changes_witness :
  token fresh_session <> Some "token" /\
  result (set_token "token" fresh_session) = inl TypeError /\
  token (post (set_token "token" fresh_session)) = Some "token".
Proof.
  assert (H : token fresh_session <> Some "token") by (vm_compute; discriminate).
  split; [exact H|].
  destruct (set_token_changes fresh_session "token" H) as (Ht & _ & _ & _ & Hnone & _).
  split; [|exact Ht]. apply Hnone; reflexivity.
Defined.

(** Runs on, settling the comparisons the hypotheses decide and splitting on
    the attributes. *)
Ltac settle :=
  repeat (run;
          first [ rewrite bool_decide_eq_false_2 by (first [assumption | discriminate | congruence])
                | rewrite bool_decide_eq_true_2 by (first [assumption | reflexivity])
                | match goal with
                  | |- context [match ?x with _ => _ end] => is_var x; destruct x
                  | |- context [if ?b then _ else _] => is_var b; destruct b
                  | |- context [sock ?x] => is_var x; destruct x
                  | |- context [connected ?x] => is_var x; destruct x
                  | |- context [udp_connected ?x] => is_var x; destruct x
                  | |- context [now_playing ?x] => is_var x; destruct x
                  end ]);
  run.

(** X5: the order of the two signals matters to a session that has neither:
    endpoint then token opens the gateway url of the host; token then endpoint
    raises [TypeError] in [set_token] and opens nothing, and the same token
    signalled once more still opens nothing. *)
Theorem endpoint_then_token_opens (s : VoiceClient) (e t : string) :
  endpoint s = None ->
  token s <> Some t ->
  _identified s = false ->
  (let a := set_endpoint e s in
   let b := set_token t (post a) in
   result a = inr tt /\ result b = inr tt /\
   trace b = [WsRunForever (gateway_url (split_host e))] /\
   ws (post b) = Some (mkWebsocket (gateway_url (split_host e)) None)) /\
  (let a := set_token t s in
   let b := set_endpoint e (post a) in
   let c := set_token t (post b) in
   result a = inl TypeError /\ result b = inr tt /\ result c = inr tt /\
   count is_run_forever (trace a ++ trace b ++ trace c) = 0%nat /\
   ws (post c) = (if ws_connected s then None else ws s) /\
   endpoint (post c) = Some (split_host e) /\ token (post c) = Some t).
Proof.
  intros Hend Htok Hid. open_session s; cbn in Hend, Htok, Hid. subst.
  split; cbv zeta; unfold gateway_url; methods; settle; cbn; repeat split; reflexivity.
Qed.

Lemma endpoint_then_token_opens_witness :
  endpoint fresh_session = None /\
  token fresh_session <> Some "token" /\
  _identified fresh_session = false /\
  trace (set_token "token" (post (set_endpoint "voice.example:443" fresh_session)))
  = [WsRunForever (gateway_url (split_host "voice.example:443"))].
Proof.
  assert (H1 : endpoint fresh_session = None) by reflexivity.
  assert (H2 : token fresh_session <> Some "token") by (vm_compute; discriminate).
  assert (H3 : _identified fresh_session = false) by reflexivity.
  repeat (split; [assumption|]).
  apply (proj1 (endpoint_then_token_opens fresh_session "voice.example:443" "token"
                  H1 H2 H3)).
Defined.

(** ** Frames *)

(** X6: while the transport is not connected, what the session would send
    is dropped: [on_open], [handle_heartbeat] and [set_speaking] change
    nothing, have no effect and do not raise. *)
Theorem frames_dropped_without_transport (s : VoiceClient) :
  ws_connected s = false ->
  on_open s = mkOutcome s [] (inr tt) /\
  handle_heartbeat s = mkOutcome s [] (inr tt) /\
  forall voice soundshare priority delay,
    set_speaking voice soundshare priority delay s = mkOutcome s [] (inr tt).
Proof.
  intros Hws. unfold on_open, handle_heartbeat, set_speaking, send. split; [|split].
  - run. destruct (_identified s); run; rewrite Hws; reflexivity.
  - run. rewrite Hws. reflexivity.
  - intros v ss p d. cbv zeta. run. rewrite Hws. reflexivity.
Qed.

Lemma frames_dropped_without_transport_witness :
  ws_connected fresh_session = false /\
  on_open fresh_session = mkOutcome fresh_session [] (inr tt).
Proof.
  split; [reflexivity|].
  apply (frames_dropped_without_transport fresh_session). reflexivity.
Defined.

(** X7: the speaking flags make the round trip: the value [set_speaking]
    sends for (voice, soundshare, priority) is below 8, and [on_voice_speaking]
    decodes that value to the same three booleans. *)
Theorem speaking_flags_round_trip (voice soundshare priority : bool) (delay u a : Z)
    (s s' : VoiceClient) :
  ws_connected s = true ->
  exists value,
    trace (set_speaking voice soundshare priority delay s)
    = [WsSend SPEAKING (SpeakingData value delay (ssrc s))] /\
    0 <= value < 8 /\
    trace (on_voice_speaking (mkSpeaking u a value) s')
    = [EmitVoiceSpeaking u voice soundshare priority].
Proof.
  intros Hws. unfold set_speaking, on_voice_speaking, send. cbv zeta.
  destruct voice, soundshare, priority; eexists;
    (split; [run; rewrite Hws; reflexivity|]); (split; [vm_compute; split; [discriminate|reflexivity]|]);
    run; reflexivity.
Qed.

Lemma speaking_flags_round_trip_witness :
  ws_connected live_session = true /\
  exists value,
    trace (set_speaking true false true 0 live_session)
    = [WsSend SPEAKING (SpeakingData value 0 (ssrc live_session))] /\
    0 <= value < 8 /\
    trace (on_voice_speaking (mkSpeaking 8 200 value) fresh_session)
    = [EmitVoiceSpeaking 8 true false true].
Proof.
  split; [reflexivity|].
  apply (speaking_flags_round_trip true false true 0 8 200 live_session fresh_session).
  reflexivity.
Defined.

(** ** The ssrc registry, one packet at a time *)

Lemma dict_del_length (k v : Z) (d : list (Z * Z)) :
  dict_get k d = Some v -> (length (dict_del k d) + 1 = length d)%nat.
Proof.
  induction d as [|[k' v'] r IH]; cbn; [discriminate|].
  destruct (bool_decide (k' = k)); cbn; [lia|]. intros H. rewrite <- (IH H). lia.
Qed.

(** X8: CLIENT_CONNECT and SPEAKING both map the packet's ssrc to its user:
    afterwards the ssrc looks up to the user, every other ssrc looks up as
    before, and the keys are still distinct. *)
Theorem ssrc_registration (s : VoiceClient) (u a flags : Z) :
  NoDup (dict_keys (audio_ssrcs s)) ->
  let o := on_voice_client_connect (mkClientConnect u a) s in
  result o = inr tt /\
  dict_get a (audio_ssrcs (post o)) = Some u /\
  (forall k, k <> a -> dict_get k (audio_ssrcs (post o)) = dict_get k (audio_ssrcs s)) /\
  NoDup (dict_keys (audio_ssrcs (post o))) /\
  audio_ssrcs (post (on_voice_speaking (mkSpeaking u a flags) s)) = audio_ssrcs (post o).
Proof.
  intros Hnd o. subst o. unfold on_voice_client_connect, on_voice_speaking. run.
  cbn [cc_audio_ssrc cc_user_id sp_ssrc sp_user_id].
  replace (audio_ssrcs (with_audio_ssrcs (dict_set a u (audio_ssrcs s)) s))
    with (dict_set a u (audio_ssrcs s)) by (destruct s; reflexivity).
  split; [reflexivity|]. split.
  - rewrite dict_get_set, bool_decide_eq_true_2 by reflexivity. reflexivity.
  - split; [|split].
    + intros k Hk. rewrite dict_get_set, bool_decide_eq_false_2 by exact Hk. reflexivity.
    + apply dict_keys_set. exact Hnd.
    + destruct s; reflexivity.
Qed.

Lemma ssrc_registration_witness :
  NoDup (dict_keys (audio_ssrcs spoken_session)) /\
  dict_get 400 (audio_ssrcs (post (on_voice_client_connect (mkClientConnect 9 400)
                                     spoken_session))) = Some 9.
Proof.
  assert (H : NoDup (dict_keys (audio_ssrcs spoken_session))).
  { apply (bool_decide_eq_true_1 _). vm_compute. reflexivity. }
  split; [exact H|]. apply (ssrc_registration spoken_session 9 400 0 H).
Defined.

(** X9: CLIENT_DISCONNECT never raises and has no effect outside the
    registry; for a user no ssrc maps to it changes nothing; otherwise it
    deletes one entry, an ssrc of that user, and every other ssrc looks up as
    before, so that of two ssrcs of the same user one is still mapped. *)
Theorem client_disconnect_removes_one (s : VoiceClient) (u : Z) :
  NoDup (dict_keys (audio_ssrcs s)) ->
  let o := on_voice_client_disconnect u s in
  result o = inr tt /\
  trace o = [] /\
  ((forall k, dict_get k (audio_ssrcs s) <> Some u) -> post o = s) /\
  (forall a, dict_get a (audio_ssrcs s) = Some u ->
     exists a', dict_get a' (audio_ssrcs s) = Some u /\
       audio_ssrcs (post o) = dict_del a' (audio_ssrcs s) /\
       (length (audio_ssrcs (post o)) + 1 = length (audio_ssrcs s))%nat /\
       forall k, dict_get k (audio_ssrcs (post o))
                 = if bool_decide (k = a') then None else dict_get k (audio_ssrcs s)) /\
  (forall a b, a <> b ->
     dict_get a (audio_ssrcs s) = Some u -> dict_get b (audio_ssrcs s) = Some u ->
     exists k, dict_get k (audio_ssrcs (post o)) = Some u).
Proof.
  intros Hnd o. subst o. unfold on_voice_client_disconnect. run.
  destruct (find _ (dict_keys (audio_ssrcs s))) as [a'|] eqn:Hfind.
  - apply find_some in Hfind as [_ Ha']. apply bool_decide_eq_true_1 in Ha'. run.
    replace (audio_ssrcs (with_audio_ssrcs (dict_del a' (audio_ssrcs s)) s))
      with (dict_del a' (audio_ssrcs s)) by (destruct s; reflexivity).
    assert (Hlook : forall k, dict_get k (dict_del a' (audio_ssrcs s))
                              = if bool_decide (k = a') then None
                                else dict_get k (audio_ssrcs s))
      by (intros k; apply dict_get_del; exact Hnd).
    split; [reflexivity|]. split; [reflexivity|]. split; [|split].
    + intros Hnone. exfalso. exact (Hnone a' Ha').
    + intros a _. exists a'. split; [exact Ha'|]. split; [reflexivity|].
      split; [exact (dict_del_length a' u _ Ha')|exact Hlook].
    + intros a b Hab Ha Hb. destruct (bool_decide_reflect (a = a')) as [->|Hne].
      * exists b. rewrite Hlook, bool_decide_eq_false_2 by congruence. exact Hb.
      * exists a. rewrite Hlook, bool_decide_eq_false_2 by exact Hne. exact Ha.
  - run. split; [reflexivity|]. split; [reflexivity|]. split; [reflexivity|]. split.
    + intros a Ha. exfalso.
      pose proof (find_none _ _ Hfind a (dict_get_keys _ _ _ Ha)) as Hcontra.
      cbv beta in Hcontra. rewrite bool_decide_eq_true_2 in Hcontra by exact Ha.
      discriminate Hcontra.
    + intros a b _ Ha _. exfalso.
      pose proof (find_none _ _ Hfind a (dict_get_keys _ _ _ Ha)) as Hcontra.
      cbv beta in Hcontra. rewrite bool_decide_eq_true_2 in Hcontra by exact Ha.
      discriminate Hcontra.
Qed.

Lemma client_disconnect_removes_one_witness :
  NoDup (dict_keys (audio_ssrcs spoken_session)) /\
  audio_ssrcs (post (on_voice_client_disconnect 8 spoken_session)) = [(100, 7); (300, 8)] /\
  exists k, dict_get k (audio_ssrcs (post (on_voice_client_disconnect 8 spoken_session)))
            = Some 8.
Proof.
  assert (H : NoDup (dict_keys (audio_ssrcs spoken_session))).
  { apply (bool_decide_eq_true_1 _). vm_compute. reflexivity. }
  split; [exact H|]. split; [reflexivity|].
  destruct (client_disconnect_removes_one spoken_session 8 H) as (_ & _ & _ & _ & Htwo).
  apply (Htwo 200 300); [discriminate|reflexivity|reflexivity].
Defined.

(** ** Closures, whatever the code *)


(** X11: a closure that reaches a Disconnected session is not followed up:
    [on_close] returns without a state change, a backoff or a reopening, and
    leaves the reconnect counter and [identified] alone. *)
Theorem on_close_when_disconnected (s : VoiceClient) (code : option Z)
    (reason : option string) :
  state s = DISCONNECTED ->
  let o := on_close code reason s in
  result o = inr tt /\
  trace o = match _heartbeat_task s with Some _ => [Kill] | None => [] end /\
  state (post o) = DISCONNECTED /\
  _reconnects (post o) = _reconnects s /\
  _identified (post o) = _identified s /\
  ws (post o) = None.
Proof.
  intros Hst. outcome. open_session s; cbn in Hst. subst. methods. settle; finish.
Qed.

Lemma on_close_when_disconnected_witness :
  state fresh_session = DISCONNECTED /\
  trace (on_close (Some 4014) None fresh_session) = [].
Proof.
  split; [reflexivity|].
  apply (on_close_when_disconnected fresh_session (Some 4014) None). reflexivity.
Defined.

(** X12: [disconnect] and then the transport's close callback: the callback
    finds the state Disconnected and does not reconnect; whatever the code,
    the counter is what it was before the teardown, nothing is reopened, and
    the session is out of the registry. *)
Theorem close_callback_after_disconnect (s : VoiceClient) (code : option Z)
    (reason : option string) :
  state s <> DISCONNECTED ->
  server_id s ∈ voice_clients (client s) ->
  let o := (disconnect;; on_close code reason) s in
  result o = inr tt /\
  state (post o) = DISCONNECTED /\
  _reconnects (post o) = _reconnects s /\
  _identified (post o) = _identified s /\
  ws (post o) = None /\
  count is_run_forever (trace o) = 0%nat /\
  backoffs (trace o) = [] /\
  count is_voice_disconnect (trace o) = 1%nat /\
  (server_id s ∉ voice_clients (client (post o))).
Proof.
  intros Hst Hreg. outcome. open_session s; cbn in Hst, Hreg. methods. settle.
  all: intros o <-; cbn; repeat split; try reflexivity.
  all: intros [_ Hout]%elem_of_difference; apply Hout, elem_of_singleton; reflexivity.
Qed.

Lemma close_callback_after_disconnect_witness :
  state live_session <> DISCONNECTED /\
  server_id live_session ∈ voice_clients (client live_session) /\
  count is_run_forever (trace ((disconnect;; on_close (Some 1000) None) live_session))
  = 0%nat.
Proof.
  assert (H1 : state live_session <> DISCONNECTED) by (vm_compute; discriminate).
  assert (H2 : server_id live_session ∈ voice_clients (client live_session)).
  { apply (bool_decide_eq_true_1 _). vm_compute. reflexivity. }
  split; [exact H1|]. split; [exact H2|].
  apply (close_callback_after_disconnect live_session (Some 1000) None H1 H2).
Defined.

(** X13: the handshake that follows a closure: when the reopened transport
    connects, [on_open] sends IDENTIFY after a hard closure, and after a soft
    one sends RESUME if the session was identified and IDENTIFY if not, with
    the session's own ids and token. *)
Theorem handshake_after_closure (s : VoiceClient) (code : option Z)
    (reason : option string) (e : string) :
  state s <> DISCONNECTED ->
  within_budget s ->
  endpoint s = Some e ->
  let o := on_close code reason s in
  let opened :=
    with_ws (Some (mkWebsocket (gateway_url e) (Some (mkSocket true)))) (post o) in
  result o = inr tt /\
  ws (post o) = Some (mkWebsocket (gateway_url e) None) /\
  (hard_code code \/ _identified s = false ->
   trace (on_open opened)
   = [WsSend IDENTIFY (IdentifyData (server_id s) (user_id s) (_session_id s) (token s)
                         (video_enabled s))]) /\
  (~ hard_code code -> _identified s = true ->
   trace (on_open opened)
   = [WsSend RESUME (ResumeData (server_id s) (_session_id s) (token s))]).
Proof.
  intros Hst Hb He. unfold within_budget, hard_code, gateway_url, user_id in *.
  open_session s; cbn in Hst, Hb, He. subst endpoint0. cbv zeta.
  methods. run. destruct _heartbeat_task0; run.
  all: rewrite bool_decide_eq_false_2 by assumption; run.
  all: replace (negb (max_reconnects0 =? 0) && (max_reconnects0 <? _reconnects0 + 1))
         with false by (symmetry; compare); run.
  all: destruct code as [c|]; run.
  all: try destruct (negb (c =? 0) && ((4000 <? c) && (c <=? 4016) || (c =? 1001))) eqn:Hc;
       run.
  all: try (destruct udp0 as [[[|]]|]; run).
  all: destruct _identified0; run.
  all: split; [reflexivity|]; split; [reflexivity|]; split; [intros H | intros Hn Hid].
  all: try reflexivity.
  all: try discriminate Hid.
  all: try (destruct H as [(c' & Hc' & Hr)|Hid]; [|discriminate Hid];
            try discriminate Hc'; injection Hc' as <-; exfalso; revert Hc;
            destruct (Z.eqb_spec c 0), (Z.ltb_spec 4000 c), (Z.leb_spec c 4016),
              (Z.eqb_spec c 1001); cbn; intros; first [lia | discriminate]).
  all: exfalso; apply Hn; exists c; split; [reflexivity|]; revert Hc;
       destruct (Z.eqb_spec c 0), (Z.ltb_spec 4000 c), (Z.leb_spec c 4016),
         (Z.eqb_spec c 1001); cbn; intros; first [lia | discriminate].
Qed.

Lemma handshake_after_closure_witness :
  state live_session <> DISCONNECTED /\
  within_budget live_session /\
  endpoint live_session = Some "voice.example" /\
  trace (on_open (with_ws (Some (mkWebsocket (gateway_url "voice.example")
                                   (Some (mkSocket true))))
                    (post (on_close (Some 4014) None live_session))))
  = [WsSend IDENTIFY (IdentifyData 42 1 "gateway-session" (Some "token") false)].
Proof.
  assert (H1 : state live_session <> DISCONNECTED) by (vm_compute; discriminate).
  assert (H2 : within_budget live_session) by (right; vm_compute; discriminate).
  assert (H3 : endpoint live_session = Some "voice.example") by reflexivity.
  repeat (split; [assumption|]).
  destruct (handshake_after_closure live_session (Some 4014) None "voice.example"
              H1 H2 H3) as (_ & _ & Hhard & _).
  apply Hhard. left. exists 4014. split; [reflexivity|lia].
Defined.

(** ** [connect] *)

Lemma disconnect_state (s : VoiceClient) : state (post (disconnect s)) = DISCONNECTED.
Proof.
  remember (disconnect s) as o eqn:E. symmetry in E. revert o E.
  open_session s. methods. run.
  destruct (bool_decide_reflect (state0 = DISCONNECTED)) as [->|Hne]; run; [finish|].
  explore; finish.
Qed.

(** X14: [connect] to the channel the session is already connected to
    returns at once: no state change, no voice state update, no wait. *)
Theorem connect_already_connected (s : VoiceClient) (c : option Z)
    (mute deaf video : bool) (during_wait : M unit) :
  falsy (target_channel s c) = false ->
  channel_id s = target_channel s c ->
  state s = CONNECTED ->
  connect c mute deaf video during_wait s = mkOutcome s [] (inr tt).
Proof.
  unfold target_channel. intros Hf Hch Hst. unfold connect. run.
  rewrite Hf. run. rewrite bool_decide_eq_true_2 by exact Hch.
  rewrite bool_decide_eq_true_2 by exact Hst. run. reflexivity.
Qed.

Lemma connect_already_connected_witness :
  falsy (target_channel joined_session (Some 77)) = false /\
  channel_id joined_session = target_channel joined_session (Some 77) /\
  state joined_session = CONNECTED /\
  connect (Some 77) false false false on_voice_resumed joined_session
  = mkOutcome joined_session [] (inr tt).
Proof.
  repeat (split; [reflexivity|]).
  apply (connect_already_connected joined_session (Some 77) false false false
           on_voice_resumed); reflexivity.
Defined.

(** X15: a [connect] whose wait sees the Connected state reached returns
    normally, leaving the session as the wait left it: it sent one voice state
    update for the target channel, entered [AWAITING_ENDPOINT] first unless
    this was a move between channels of a connected session (or a repeat of
    the current channel), and closed nothing. *)
Theorem connect_wait_succeeded (s s' : VoiceClient) (c : option Z)
    (mute deaf video : bool) (during_wait : M unit) (tr : list effect) (r : exn + unit) :
  falsy (target_channel s c) = false ->
  ~ (channel_id s = target_channel s c /\ state s = CONNECTED) ->
  during_wait (awaiting (target_channel s c) s) = mkOutcome s' tr r ->
  reached_connected tr = true ->
  connect c mute deaf video during_wait s
  = mkOutcome s' (requested (target_channel s c) mute deaf video s ++ tr) (inr tt).
Proof.
  unfold target_channel, awaiting, requested, reached_connected.
  intros Hf Hnot Hw Hreach. open_session s; cbn in Hf, Hnot, Hw |- *.
  unfold connect, set_state, set_voice_state. run. rewrite Hf. run.
  destruct (bool_decide_reflect (channel_id0 = (if is_dm0 then Some server_id0 else c)))
    as [Hch|Hch];
    destruct (bool_decide_reflect (state0 = CONNECTED)) as [Hst|Hst]; run.
  1: { exfalso. apply Hnot. split; assumption. }
  all: rewrite Hw; run; rewrite Hreach; run; rewrite ?app_nil_r; reflexivity.
Qed.

(** X16: a [connect] whose wait does not see the Connected state reached is
    the request, the wait, then [disconnect], and it raises: the session ends
    Disconnected in every case, and the error is the connection failure
    carrying the session unless [disconnect] itself raised. *)
Theorem connect_timed_out (s s' : VoiceClient) (c : option Z)
    (mute deaf video : bool) (during_wait : M unit) (tr : list effect) (r : exn + unit) :
  falsy (target_channel s c) = false ->
  ~ (channel_id s = target_channel s c /\ state s = CONNECTED) ->
  during_wait (awaiting (target_channel s c) s) = mkOutcome s' tr r ->
  reached_connected tr = false ->
  let teardown := disconnect s' in
  let o := connect c mute deaf video during_wait s in
  post o = post teardown /\
  trace o = requested (target_channel s c) mute deaf video s ++ tr ++ trace teardown /\
  result o = match result teardown with
             | inl e => inl e
             | inr _ => inl (VoiceException FailedToConnect (server_id s))
             end /\
  state (post o) = DISCONNECTED /\
  (state s' = DISCONNECTED \/ server_id s' ∈ voice_clients (client s') ->
   result o = inl (VoiceException FailedToConnect (server_id s))).
Proof.
  intros Hf Hnot Hw Hreach teardown o.
  assert (Hstate : state (post teardown) = DISCONNECTED) by apply disconnect_state.
  assert (Hok : state s' = DISCONNECTED \/ server_id s' ∈ voice_clients (client s') ->
                result teardown = inr tt).
  { intros [Hd|Hreg]; unfold teardown.
    - rewrite (disconnect_noop s' Hd). reflexivity.
    - destruct (decide (state s' = DISCONNECTED)) as [Hd|Hd].
      + rewrite (disconnect_noop s' Hd). reflexivity.
      + apply (disconnect_run s' Hd Hreg). }
  assert (Hrun : o = match teardown with
                     | mkOutcome s2 tr2 (inl e) =>
                         mkOutcome s2
                           (requested (target_channel s c) mute deaf video s ++ tr ++ tr2)
                           (inl e)
                     | mkOutcome s2 tr2 (inr _) =>
                         mkOutcome s2
                           (requested (target_channel s c) mute deaf video s ++ tr ++ tr2)
                           (inl (VoiceException FailedToConnect (server_id s)))
                     end).
  { unfold o, teardown. clear Hstate Hok o teardown.
    unfold target_channel, awaiting, requested, reached_connected in *.
    open_session s; cbn in Hf, Hnot, Hw |- *.
    unfold connect, set_state, set_voice_state. run. rewrite Hf. run.
    destruct (bool_decide_reflect (channel_id0 = (if is_dm0 then Some server_id0 else c)))
      as [Hch|Hch];
      destruct (bool_decide_reflect (state0 = CONNECTED)) as [Hst|Hst]; run.
    1: { exfalso. apply Hnot. split; assumption. }
    all: rewrite Hw; run; rewrite Hreach; run.
    all: unfold mbind, M_bind, bind, raise.
    all: destruct (disconnect s') as [s2 tr2 [e|[]]]; cbn; rewrite ?app_nil_r; reflexivity. }
  rewrite Hrun. destruct teardown as [s2 tr2 [e|[]]]; cbn [post trace result] in *.
  all: split; [reflexivity|]; split; [reflexivity|]; split; [reflexivity|].
  all: split; [exact Hstate|].
  all: intros H; first [reflexivity | specialize (Hok H); discriminate Hok].
Qed.

Lemma connect_wait_succeeded_witness :
  falsy (target_channel joined_session (Some 78)) = false /\
  ~ (channel_id joined_session = target_channel joined_session (Some 78)
     /\ state joined_session = CONNECTED) /\
  reached_connected [StateEmit CONNECTED CONNECTED] = true /\
  trace (connect (Some 78) true false false on_voice_resumed joined_session)
  = [GwVoiceStateUpdate (Some 42) (Some 78) true false false;
     StateEmit CONNECTED CONNECTED].
Proof.
  assert (H1 : falsy (target_channel joined_session (Some 78)) = false) by reflexivity.
  assert (H2 : ~ (channel_id joined_session = target_channel joined_session (Some 78)
                  /\ state joined_session = CONNECTED)).
  { intros [H _]. revert H. vm_compute. discriminate. }
  assert (H3 : reached_connected [StateEmit CONNECTED CONNECTED] = true) by reflexivity.
  repeat (split; [assumption|]).
  rewrite (connect_wait_succeeded joined_session joined_session (Some 78) true false
             false on_voice_resumed [StateEmit CONNECTED CONNECTED] (inr tt) H1 H2
             eq_refl H3).
  reflexivity.
Defined.

Lemma connect_timed_out_witness :
  let s := with_state AUTHENTICATING live_session in
  falsy (target_channel s (Some 77)) = false /\
  ~ (channel_id s = target_channel s (Some 77) /\ state s = CONNECTED) /\
  (mret tt : M unit) (awaiting (target_channel s (Some 77)) s)
  = mkOutcome (with_state AWAITING_ENDPOINT s) [] (inr tt) /\
  reached_connected [] = false /\
  result (connect (Some 77) false false false (mret tt) s)
  = inl (VoiceException FailedToConnect 42).
Proof.
  intros s.
  assert (H1 : falsy (target_channel s (Some 77)) = false) by reflexivity.
  assert (H2 : ~ (channel_id s = target_channel s (Some 77) /\ state s = CONNECTED)).
  { intros [H _]. revert H. vm_compute. discriminate. }
  assert (H3 : (mret tt : M unit) (awaiting (target_channel s (Some 77)) s)
               = mkOutcome (with_state AWAITING_ENDPOINT s) [] (inr tt)) by reflexivity.
  assert (H4 : reached_connected [] = false) by reflexivity.
  repeat (split; [assumption|]).
  destruct (connect_timed_out s (with_state AWAITING_ENDPOINT s) (Some 77) false false
              false (mret tt) [] (inr tt) H1 H2 H3 H4) as (_ & _ & _ & _ & Hres).
  apply Hres. right. apply (bool_decide_eq_true_1 _). vm_compute. reflexivity.
Defined.


(** ** READY and SESSION_DESCRIPTION *)

(** X17: a READY with a supported mode and a discovered address stores
    ssrc, ip, port and mode, marks the session identified and the media
    transport connected, and leaves the state at [CONNECTING]; over a connected
    transport it answers with SELECT_PROTOCOL (the discovered address, the
    chosen mode, the codec announcement) and then CLIENT_CONNECT with the base
    ssrc as audio ssrc, in that order. *)
Theorem ready_selects_protocol (order : list string) (codecs : list (string * Z))
    (address : string) (port_ : option Z) (data : ReadyPacket) (s : VoiceClient)
    (m : string) :
  select_mode order (ready_modes data) = Some m ->
  non_empty (Some address) = true ->
  let o := on_voice_ready order codecs (Some address, port_) data s in
  result o = inr tt /\
  state (post o) = CONNECTING /\
  ssrc (post o) = Some (ready_ssrc data) /\
  ip (post o) = Some (ready_ip data) /\
  port (post o) = Some (ready_port data) /\
  mode (post o) = Some m /\
  _identified (post o) = true /\
  udp (post o) = Some (mkUDP true) /\
  trace o
  = [StateEmit CONNECTING (state s);
     UdpConnect (Some (ready_ip data)) (Some (ready_port data))]
    ++ (if ws_connected s
        then [WsSend SELECT_PROTOCOL
                (SelectProtocolData port_ (Some address) (Some m) (announce 0 codecs));
              WsSend CLIENT_CONNECT (ClientConnectData (Some (ready_ssrc data)) 0 0)]
        else []).
Proof.
  intros Hm Haddr. destruct address as [|a rest]; [discriminate Haddr|].
  outcome. open_session s. methods. run. rewrite Hm. settle.
  all: intros o <-; cbn [post trace result]; fields; repeat split; reflexivity.
Qed.

Lemma ready_selects_protocol_witness :
  select_mode SUPPORTED_MODES [mode_plain; mode_suffix] = Some mode_suffix /\
  non_empty (Some "203.0.113.7") = true /\
  trace (on_voice_ready SUPPORTED_MODES [("opus", 120)] (Some "203.0.113.7", Some 50001)
           (mkReady 1000 "10.0.0.1" 50000 [mode_plain; mode_suffix]) live_session)
  = [StateEmit CONNECTING CONNECTED; UdpConnect (Some "10.0.0.1") (Some 50000);
     WsSend SELECT_PROTOCOL
       (SelectProtocolData (Some 50001) (Some "203.0.113.7") (Some mode_suffix)
          [("opus", 1000, 120)]);
     WsSend CLIENT_CONNECT (ClientConnectData (Some 1000) 0 0)].
Proof.
  assert (H1 : select_mode SUPPORTED_MODES [mode_plain; mode_suffix] = Some mode_suffix)
    by (vm_compute; reflexivity).
  assert (H2 : non_empty (Some "203.0.113.7") = true) by reflexivity.
  split; [exact H1|]. split; [exact H2|].
  destruct (ready_selects_protocol SUPPORTED_MODES [("opus", 120)] "203.0.113.7"
              (Some 50001) (mkReady 1000 "10.0.0.1" 50000 [mode_plain; mode_suffix])
              live_session mode_suffix H1 H2) as (_ & _ & _ & _ & _ & _ & _ & _ & Htr).
  exact Htr.
Defined.



(** X19: the codec announcement keeps the codecs in their order, one entry
    each, and the entry at position [k] has priority [(k + 1) * 1000]. *)
Theorem announce_priorities (codecs : list (string * Z)) (k : nat) (codec : string)
    (payload_type : Z) :
  codecs !! k = Some (codec, payload_type) ->
  length (announce 0 codecs) = length codecs /\
  announce 0 codecs !! k = Some (codec, (Z.of_nat k + 1) * 1000, payload_type).
Proof.
  assert (Hlen : forall idx cs, length (announce idx cs) = length cs).
  { intros idx cs. revert idx. induction cs as [|[n p] cs IH]; intros idx; cbn;
      [reflexivity|]. rewrite IH. reflexivity. }
  assert (Hnth : forall cs idx j,
            cs !! j = Some (codec, payload_type) ->
            announce idx cs !! j = Some (codec, (idx + Z.of_nat j + 1) * 1000, payload_type)).
  { induction cs as [|[n p] cs IH]; intros idx j Hj; [discriminate Hj|].
    destruct j as [|j]; simpl in Hj |- *.
    - injection Hj as -> ->. do 3 f_equal. lia.
    - rewrite (IH (idx + 1) j Hj). do 3 f_equal. lia. }
  intros Hk. split; [apply Hlen|]. rewrite (Hnth codecs 0 k Hk). reflexivity.
Qed.

Lemma announce_priorities_witness :
  [("opus", 120); ("test", 121)] !! 1%nat = Some ("test", 121) /\
  announce 0 [("opus", 120); ("test", 121)] !! 1%nat = Some ("test", 2000, 121).
Proof.
  split; [reflexivity|].
  apply (announce_priorities [("opus", 120); ("test", 121)] 1 "test" 121). reflexivity.
Defined.

Lemma to_bytes_spec (key : list Z) :
  forallb (fun b => (0 <=? b) && (b <? 256)) key = true
  <-> Forall (fun b => 0 <= b < 256) key.
Proof.
  induction key as [|b key IH]; cbn [forallb].
  - split; [constructor | reflexivity].
  - rewrite andb_true_iff, IH, Forall_cons. apply and_iff_compat_r. lia.
Qed.

(** X20: SESSION_DESCRIPTION stores mode, codecs and media session id in
    every case. Without a media transport it raises [AttributeError] with no
    effect. With one it hands over the codec and then, when every element of
    the secret key is a byte, sets up encryption with the key and enters
    [CONNECTED]; a key with an element outside 0..255 raises [ValueError]
    after the codec was handed over. The state stays what it was in both
    error cases. *)
Theorem session_description_needs_media (s : VoiceClient) (sdp : SdpPacket) :
  let o := on_voice_sdp sdp s in
  mode (post o) = Some (sdp_mode sdp) /\
  audio_codec (post o) = Some (sdp_audio_codec sdp) /\
  video_codec (post o) = Some (sdp_video_codec sdp) /\
  transport_id (post o) = Some (sdp_media_session_id sdp) /\
  (udp s = None ->
   result o = inl AttributeError /\ trace o = [] /\ state (post o) = state s) /\
  (udp s <> None ->
   Forall (fun b => 0 <= b < 256) (sdp_secret_key sdp) ->
   result o = inr tt /\ state (post o) = CONNECTED /\
   trace o = [UdpSetAudioCodec (sdp_audio_codec sdp);
              UdpSetupEncryption (sdp_secret_key sdp);
              StateEmit CONNECTED (state s)]) /\
  (udp s <> None ->
   forall b, b ∈ sdp_secret_key sdp -> ~ (0 <= b < 256) ->
   result o = inl ValueError /\ state (post o) = state s /\
   trace o = [UdpSetAudioCodec (sdp_audio_codec sdp)]).
Proof.
  outcome. open_session s. methods. run. destruct udp0; run.
  2: { intros o <-; cbn. repeat split; try reflexivity; congruence. }
  destruct (forallb _ (sdp_secret_key sdp)) eqn:Hall; run; intros o <-; cbn.
  - apply to_bytes_spec in Hall.
    repeat (split; [reflexivity|]). split; [intros [=]|].
    split; [intros _ _; repeat split; reflexivity|].
    intros _ b Hb Hout. exfalso. apply Hout.
    rewrite Forall_forall in Hall. exact (Hall b Hb).
  - repeat (split; [reflexivity|]). split; [intros [=]|].
    split; [intros _ HF; apply to_bytes_spec in HF; congruence|].
    intros _ b _ _. repeat split; reflexivity.
Qed.

Lemma session_description_needs_media_witness :
  udp live_session <> None /\
  256 ∈ [1; 256; 3] /\
  ~ (0 <= 256 < 256) /\
  result (on_voice_sdp (mkSdp mode_plain "opus" "" "media" [1; 256; 3]) live_session)
  = inl ValueError /\
  state (post (on_voice_sdp (mkSdp mode_plain "opus" "" "media" [1; 256; 3]) live_session))
  = CONNECTED.
Proof.
  assert (H1 : udp live_session <> None) by discriminate.
  assert (H2 : 256 ∈ [1; 256; 3]) by (rewrite !elem_of_cons; auto).
  assert (H3 : ~ (0 <= 256 < 256)) by lia.
  split; [exact H1|]. split; [exact H2|]. split; [exact H3|].
  destruct (session_description_needs_media live_session
              (mkSdp mode_plain "opus" "" "media" [1; 256; 3]))
    as (_ & _ & _ & _ & _ & _ & Hbad).
  destruct (Hbad H1 256 H2 H3) as (Hres & Hst & _). split; [exact Hres | exact Hst].
Defined.

(** ** The heartbeat loop, pass after pass *)

Lemma count_app (p : effect -> bool) (a b : list effect) :
  count p (a ++ b) = (count p a + count p b)%nat.
Proof.
  induction a as [|e a IH]; cbn [count app]; [reflexivity|].
  rewrite IH. destruct (p e); reflexivity.
Qed.

Lemma handle_heartbeat_acknowledge_run (s : VoiceClient) :
  handle_heartbeat_acknowledge s
  = mkOutcome (with_heartbeat_acknowledged true s) [] (inr tt).
Proof. reflexivity. Qed.

(** X21: as long as every sleep of the heartbeat loop sees the
    acknowledgment handled, the loop goes on: after [n] sleeps it is asleep
    again, has sent one heartbeat per pass over a connected transport (none
    over a closed one), has closed nothing and killed nothing, and waits for
    the next acknowledgment. *)
Theorem heartbeat_acknowledged_in_time (own : bool) (i : Z) (n : nat) (s : VoiceClient) :
  _heartbeat_acknowledged s = true ->
  let o := heartbeat_task own i (repeat handle_heartbeat_acknowledge n) s in
  result o = inr Sleeping /\
  post o = with_heartbeat_acknowledged false s /\
  count is_send (trace o) = (if ws_connected s then S n else 0%nat) /\
  count is_forced_close (trace o) = 0%nat /\
  count is_kill (trace o) = 0%nat /\
  count is_reconnecting (trace o) = 0%nat.
Proof.
  intros Hack. revert s Hack. induction n as [|n IH]; intros s Hack o; subst o.
  - open_session s; cbn in Hack; subst. cbn [repeat].
    unfold heartbeat_task, send, ws_connected. explore_attributes.
    all: cbn; repeat split; reflexivity.
  - cbn [repeat]. rewrite heartbeat_task_cons.
    open_session s; cbn in Hack; subst. unfold send, ws_connected.
    explore_attributes.
    all: rewrite handle_heartbeat_acknowledge_run; run.
    all: match goal with
         | |- context [heartbeat_task ?b ?j ?l ?s1] =>
             pose proof (IH s1 eq_refl) as Hrest; cbv zeta in Hrest;
             destruct (heartbeat_task b j l s1) as [p t r]
         end.
    all: unfold ws_connected in Hrest; cbn in Hrest.
    all: destruct Hrest as (-> & -> & Hs & Hc & Hk & Hr).
    all: cbn; rewrite Hs, Hc, Hk, Hr; repeat split; reflexivity.
Qed.

Lemma heartbeat_acknowledged_in_time_witness :
  _heartbeat_acknowledged live_session = true /\
  result (heartbeat_task true 41250 (repeat handle_heartbeat_acknowledge 3) live_session)
  = inr Sleeping /\
  count is_send
    (trace (heartbeat_task true 41250 (repeat handle_heartbeat_acknowledge 3) live_session))
  = 4%nat.
Proof.
  split; [reflexivity|].
  destruct (heartbeat_acknowledged_in_time true 41250 3 live_session eq_refl)
    as (Hres & _ & Hsend & _).
  split; [exact Hres | exact Hsend].
Defined.

(** X22: a sleep that ends with the heartbeat still unacknowledged is the
    loop's last, whatever else happened during the sleep: the next pass sends
    no heartbeat, force-closes the transport with status 4000 and calls
    [on_close]. In the greenlet that [_heartbeat_task] holds, the call ends at
    its [kill()] with [GreenletExit], and the session is left as the forced
    close left it; in another greenlet, or with no greenlet held, the call is
    the whole of [on_close]. *)
Theorem heartbeat_missed_then_forced (own : bool) (i : Z) (others : M unit)
    (rest : list (M unit)) (s s' : VoiceClient) (w' : Websocket) (tr : list effect)
    (r : exn + unit) :
  _heartbeat_acknowledged s = true ->
  others (with_heartbeat_acknowledged false s) = mkOutcome s' tr r ->
  _heartbeat_acknowledged s' = false ->
  ws s' = Some w' ->
  let handled := on_close (Some 0) (Some "HEARTBEAT failure") (force_closed s' w') in
  let o := heartbeat_task own i (others :: rest) s in
  let pass := (if ws_connected s then [WsSend HEARTBEAT HeartbeatData] else [])
              ++ SleepMs i :: tr ++ [WsClose (Some 4000)] in
  result o <> inr Sleeping /\
  (own = true -> _heartbeat_task s' <> None ->
   result o = inl GreenletExit /\
   post o = force_closed s' w' /\
   trace o = pass ++ [Kill]) /\
  (own = false \/ _heartbeat_task s' = None ->
   post o = post handled /\
   trace o = pass ++ trace handled).
Proof.
  intros Hack Hothers Hack' Hws' handled o pass. subst o handled pass.
  rewrite heartbeat_task_cons. unfold send. run. rewrite Hack. run.
  destruct (ws_connected s); run; rewrite Hothers; run.
  all: rewrite (heartbeat_task_unacknowledged s' w' own i rest Hack' Hws').
  all: split; [|split].
  all: try (destruct (on_close_in_heartbeat _ _ _ _) as [p t [e|[]]]; cbn;
            discriminate).
  all: try (intros -> Hheld; destruct (_heartbeat_task s') as [g|] eqn:Hg;
            [|congruence];
            rewrite (on_close_in_own_greenlet (force_closed s' w') g)
              by (destruct s'; exact Hg);
            cbn; rewrite <- ?app_assoc; repeat split; reflexivity).
  all: intros Hother; rewrite on_close_in_other_greenlet
         by (destruct Hother as [-> | Hnone];
             [left; reflexivity | right; destruct s'; exact Hnone]).
  all: destruct (on_close _ _ _) as [p t [e|[]]]; cbn; rewrite <- ?app_assoc;
       split; reflexivity.
Qed.

Lemma heartbeat_missed_then_forced_witness :
  let s := with_heartbeat_task (Some (mkGreenlet 41250)) live_session in
  let s' := with_heartbeat_acknowledged false s in
  let w' := mkWebsocket (gateway_url "voice.example") (Some (mkSocket true)) in
  _heartbeat_acknowledged s = true /\
  (mret tt : M unit) (with_heartbeat_acknowledged false s) = mkOutcome s' [] (inr tt) /\
  _heartbeat_acknowledged s' = false /\
  ws s' = Some w' /\
  _heartbeat_task s' <> None /\
  result (heartbeat_task true 41250 [mret tt] s) = inl GreenletExit /\
  trace (heartbeat_task true 41250 [mret tt] s)
  = [WsSend HEARTBEAT HeartbeatData; SleepMs 41250; WsClose (Some 4000); Kill].
Proof.
  intros s s' w'.
  assert (Hheld : _heartbeat_task s' <> None) by discriminate.
  do 4 (split; [reflexivity|]). split; [exact Hheld|].
  destruct (heartbeat_missed_then_forced true 41250 (mret tt) [] s s' w' [] (inr tt)
              eq_refl eq_refl eq_refl eq_refl) as (_ & Hown & _).
  destruct (Hown eq_refl Hheld) as (Hres & _ & Htr). split; [exact Hres | exact Htr].
Defined.

(** X23: a second HELLO without a closure in between spawns a second
    heartbeat greenlet and forgets the first: the closure that follows kills
    one greenlet, not two. *)
Theorem second_hello_orphans_heartbeat (i1 i2 : Z) (code : option Z)
    (reason : option string) (s : VoiceClient) :
  let o := (on_voice_hello i1;; on_voice_hello i2;; on_close code reason) s in
  count is_spawn (trace o) = 2%nat /\
  count is_kill (trace o) = 1%nat /\
  _heartbeat_task (post o) = None.
Proof.
  outcome. open_session s. methods. explore; finish.
Qed.

(** ** A new session *)

(** X24: a session just created is registered and Disconnected; if its
    first [connect] times out with nothing having happened, it has announced
    the join and the leave to the gateway, published one disconnect
    notification, is Disconnected again and out of the registry, and the
    caller gets the connection failure. *)
Theorem new_session_connect_times_out (c : Client) (sid : Z) (dm : bool) (max_ : Z)
    (ch : option Z) (mute deaf video : bool) :
  let s := init c sid dm max_ in
  falsy (target_channel s ch) = false ->
  let o := connect ch mute deaf video (mret tt) s in
  sid ∈ voice_clients (client s) /\
  state s = DISCONNECTED /\
  result o = inl (VoiceException FailedToConnect sid) /\
  state (post o) = DISCONNECTED /\
  trace o = [StateEmit AWAITING_ENDPOINT DISCONNECTED;
             GwVoiceStateUpdate (if dm then None else Some sid) (target_channel s ch)
               mute deaf video;
             StateEmit DISCONNECTED AWAITING_ENDPOINT;
             GwVoiceStateUpdate (if dm then None else Some sid) None false false false;
             EmitVoiceDisconnect sid] /\
  voice_clients (client (post o)) = voice_clients c ∖ {[ sid ]}.
Proof.
  intros s Hf o. subst o s. unfold target_channel, init in *. cbn in Hf.
  assert (Hreg : sid ∈ {[ sid ]} ∪ voice_clients c).
  { apply elem_of_union. left. apply elem_of_singleton. reflexivity. }
  split; [exact Hreg|]. split; [reflexivity|].
  remember (connect _ _ _ _ _ _) as o eqn:E. symmetry in E. revert o E.
  methods. run. rewrite Hf. run.
  rewrite (bool_decide_eq_false_2 (None = _)).
  2: { destruct dm, ch; cbn in Hf |- *; congruence. }
  repeat (run; first [ rewrite bool_decide_eq_false_2 by discriminate
                     | rewrite bool_decide_eq_true_2 by exact Hreg
                     | progress cbn [existsb] ]).
  run. intros o <-. fields. repeat split; try reflexivity.
  clear. apply set_eq. intros x. rewrite !elem_of_difference, elem_of_union. tauto.
Qed.

Lemma new_session_connect_times_out_witness :
  falsy (target_channel (init (mkClient ∅ 1 "gateway-session") 42 false 5) (Some 77))
  = false /\
  result (connect (Some 77) false false false (mret tt)
            (init (mkClient ∅ 1 "gateway-session") 42 false 5))
  = inl (VoiceException FailedToConnect 42).
Proof.
  split; [reflexivity|].
  apply (new_session_connect_times_out (mkClient ∅ 1 "gateway-session") 42 false 5
           (Some 77) false false false). reflexivity.
Defined.

(** ** What no method touches *)

Lemma same_identity_refl (s : VoiceClient) : same_identity s s.
Proof. unfold same_identity. repeat split; try reflexivity. left. reflexivity. Qed.

Lemma same_identity_trans (s1 s2 s3 : VoiceClient) :
  same_identity s1 s2 -> same_identity s2 s3 -> same_identity s1 s3.
Proof.
  unfold same_identity.
  intros (H1 & H2 & H3 & H4 & H5 & H6 & H7 & H8 & H9 & H10)
         (K1 & K2 & K3 & K4 & K5 & K6 & K7 & K8 & K9 & K10).
  rewrite K1, K2, K3, K4, K5, K6, K7, K8, K9, H1, H2, H3, H4, H5, H6, H7, H8, H9.
  repeat split; try reflexivity.
  rewrite H1 in K10. destruct H10 as [H10|H10], K10 as [K10|K10];
    rewrite K10, H10; [left|right|right|right]; try reflexivity.
  apply set_eq. intros x. rewrite !elem_of_difference. tauto.
Qed.

Ltac identical :=
  intros ? <-; unfold same_identity; fields;
  repeat split; first [reflexivity | left; reflexivity | right; reflexivity].

Ltac identity_base :=
  let o := fresh "o" in let E := fresh "E" in
  intros s;
  match goal with
  | |- same_identity _ (post ?t) => remember t as o eqn:E; symmetry in E; revert o E
  end;
  open_session s; methods; explore; identical.

Lemma identity_on_close (code : option Z) (reason : option string) :
  keeps_identity (on_close code reason).
Proof. identity_base. Qed.

Lemma identity_disconnect : keeps_identity disconnect.
Proof. identity_base. Qed.

Lemma identity_background (m : M unit) (s : VoiceClient) :
  keeps_identity m -> match m s with mkOutcome s' _ _ => same_identity s s' end.
Proof. intros Hm. specialize (Hm s). destruct (m s). exact Hm. Qed.

Lemma identity_ignore {A} (m : M A) : keeps_identity (ignore m) <-> keeps_identity m.
Proof.
  unfold ignore, keeps_identity. split; intros H s; specialize (H s);
    unfold mbind, M_bind, bind in *; destruct (m s) as [s' tr [e|a]]; exact H.
Qed.

Lemma activity_keeps_identity (m : M unit) : activity m -> keeps_identity m.
Proof.
  induction 1.
  - intros s. apply same_identity_refl.
  - intros s. rewrite run_try.
    pose proof (identity_background a s IHactivity1) as Ha.
    destruct (a s) as [s' tr r]. specialize (IHactivity2 s').
    destruct (b s') as [s'' tr' r']. exact (same_identity_trans _ _ _ Ha IHactivity2).
  - identity_base.
  - identity_base.
  - identity_base.
  - identity_base.
  - apply identity_on_close.
  - intros s. unfold on_message. pose proof (identity_background h s IHactivity) as Hh.
    unfold try_log. destruct (h s) as [s' tr [[]|]]; exact Hh.
  - intros s. apply same_identity_refl.
  - identity_base.
  - intros s. remember (on_voice_ready order codecs discovered data s) as o eqn:E.
    symmetry in E. revert o E. open_session s. methods. run.
    destruct (select_mode order (ready_modes data)); explore; identical.
  - identity_base.
  - identity_base.
  - identity_base.
  - identity_base.
  - identity_base.
  - intros s. remember (on_voice_client_disconnect u s) as o eqn:E.
    symmetry in E. revert o E. open_session s. methods. run.
    destruct (find _ _); run; identical.
  - identity_base.
  - identity_base.
  - identity_base.
  - identity_base.
  - identity_base.
  - intros s. remember (connect c mute deaf video w s) as o eqn:E.
    symmetry in E. revert o E. open_session s.
    unfold connect, set_state, set_voice_state. explore.
    all: try identical.
    all: match goal with
         | |- context [match ?f ?s1 with _ => _ end] =>
             is_var f; pose proof (identity_background f s1 IHactivity) as Hw;
             destruct (f s1) as [s' tr r]
         end.
    all: explore.
    all: try (intros o <-; cbn [post];
              refine (same_identity_trans _ _ _ _ Hw); unfold same_identity; fields;
              repeat split; first [reflexivity | left; reflexivity]).
    all: unfold mbind, M_bind, bind, raise.
    all: pose proof (identity_disconnect s') as Hd.
    all: destruct (disconnect s') as [s2 tr2 [e|[]]]; cbn [post prepend] in *.
    all: intros o <-; cbn [post];
         refine (same_identity_trans _ _ _ _ Hd);
         refine (same_identity_trans _ _ _ _ Hw); unfold same_identity; fields;
         repeat split; first [reflexivity | left; reflexivity].
  - identity_base.
  - apply identity_ignore. intros s.
    remember (heartbeat_task own i [] s) as o eqn:E. symmetry in E. revert o E.
    open_session s. unfold heartbeat_task. methods. explore; identical.
  - apply identity_ignore. apply (proj1 (identity_ignore _)) in IHactivity2. intros s.
    remember (heartbeat_task own i (w :: rest) s) as o eqn:E. symmetry in E. revert o E.
    rewrite heartbeat_task_cons. open_session s. methods. run.
    destruct _heartbeat_acknowledged0; run.
    2: { explore; identical. }
    explore.
    all: match goal with
         | |- context [match ?f ?s1 with _ => _ end] =>
             is_var f; pose proof (identity_background f s1 IHactivity1) as Hw;
             destruct (f s1) as [s' tr r];
             pose proof (IHactivity2 s') as Hrest;
             destruct (heartbeat_task own i rest s') as [s'' tr' r']
         end.
    all: cbn [post] in Hrest; intros o <-; cbn [post prepend];
         refine (same_identity_trans _ _ _ _ Hrest);
         refine (same_identity_trans _ _ _ _ Hw); unfold same_identity; fields;
         repeat split; first [reflexivity | left; reflexivity].
Qed.

(** X25: through everything that can happen to a session, in any order and
    nesting, no method assigns the session's server id, channel id, DM flag,
    reconnect budget, video flag, media player or gateway session id, nor the
    parent client's own ids; and the registry either stays as it is or loses
    the session's own entry, never another one. *)
Theorem activity_keeps_session_identity (m : M unit) (s : VoiceClient) :
  activity m ->
  same_identity s (post (m s)).
Proof. intros Hact. exact (activity_keeps_identity m Hact s). Qed.

Lemma activity_keeps_session_identity_witness :
  activity two_closures /\
  channel_id (post (two_closures live_session)) = channel_id live_session /\
  max_reconnects (post (two_closures live_session)) = max_reconnects live_session.
Proof.
  assert (Hact : activity two_closures).
  { unfold two_closures. repeat (apply act_then; [constructor|]). constructor. }
  split; [exact Hact|].
  destruct (activity_keeps_session_identity two_closures live_session Hact)
    as (_ & Hch & _ & Hmax & _).
  split; [exact Hch | exact Hmax].
Defined.
